(** * Work-page generator: a shallow embedding of [scripts/generate_work_pages.py]

    The script reads the rows of a spreadsheet and emits one Markdown page
    (YAML front matter plus body) per row.  This development embeds its
    helpers ([slug_id], [parse_date], [parse_list], [yaml_quote],
    [to_yaml_value], [build_front_matter]) and the row loop of [main], and
    relates them to the behaviour described for [normalize_id],
    [normalize_date], [serialize_scalar] and the document writer.

    Modelling conventions.
    - A Python [str] is a list of characters.  Characters are restricted to
      code points below 256; in that range the decimal digits ([\d]) are
      exactly '0'..'9' and the characters removed by [str.strip] are
      U+0009..U+000D, U+001C..U+0020, U+0085 and U+00A0.
    - A cell value is a [scalar]: [None], a bool, an int, a float, a str, a
      [datetime.date] or a [datetime.datetime].
    - A float is given by its binary value together with the text the
      runtime prints for it: [repr] of a float is the interpreter's
      shortest round-trip printer, which is not part of the script.  Every
      result below holds whatever that text is.
    - Exceptions are values of [exn]; a computation that may raise returns a
      [result]. *)

From Stdlib Require Import ZArith String Ascii List Bool Lia.
From Stdlib Require Import Numbers.DecimalString Floats.SpecFloat.
From stdpp Require Import base option list gmap strings.

Set Warnings "-abstract-large-number".

Coercion list_ascii_of_string : string >-> list.
Abbreviation str := (list ascii).

(** ** Characters and strings *)

Definition NL : ascii := "010"%char.   (* newline *)
Definition DQ : ascii := "034"%char.   (* double quote *)
Definition BS : ascii := "092"%char.   (* backslash *)

Definition code (c : ascii) : N := N_of_ascii c.

(** [\d] on code points below 256. *)
Definition isdigit (c : ascii) : bool :=
  (48 <=? code c)%N && (code c <=? 57)%N.

(** [str.isspace] on code points below 256. *)
Definition isspace (c : ascii) : bool :=
  ((9 <=? code c)%N && (code c <=? 13)%N)
  || ((28 <=? code c)%N && (code c <=? 32)%N)
  || (code c =? 133)%N || (code c =? 160)%N.

Fixpoint lstrip (s : str) : str :=
  match s with
  | c :: s' => if isspace c then lstrip s' else s
  | [] => []
  end.

Definition rstrip (s : str) : str := rev (lstrip (rev s)).

(** [s.strip()] *)
Definition strip (s : str) : str := lstrip (rstrip s).

(** [sep.join(parts)] *)
Fixpoint join (sep : str) (parts : list str) : str :=
  match parts with
  | [] => []
  | [p] => p
  | p :: ps => p ++ sep ++ join sep ps
  end.

(** [s.split(sep)] for a one-character separator: the pieces between the
    occurrences of [sep], empty pieces included. *)
Fixpoint split (sep : ascii) (s : str) : list str :=
  match s with
  | [] => [[]]
  | c :: s' =>
      if Ascii.eqb c sep then [] :: split sep s'
      else match split sep s' with
           | p :: ps => (c :: p) :: ps
           | [] => [[c]]
           end
  end.

(** [s.replace(old, new)] for a one-character [old]. *)
Definition replace (old : ascii) (new : str) (s : str) : str :=
  flat_map (fun c => if Ascii.eqb c old then new else [c]) s.

(** [s.zfill(width)]: pad on the left with '0' up to [width]; a leading sign
    stays in front of the padding. *)
Definition zfill (s : str) (width : Z) : str :=
  let fill := repeat "0"%char (Z.to_nat (width - Z.of_nat (length s))) in
  match s with
  | c :: s' =>
      if Ascii.eqb c "+" || Ascii.eqb c "-" then c :: fill ++ s' else fill ++ s
  | [] => fill
  end.

(** Decimal numerals: [str(n)] for an int. *)
Definition str_of_Z (z : Z) : str := NilZero.string_of_int (Z.to_int z).
Definition str_of_nat (n : nat) : str := str_of_Z (Z.of_nat n).

(** [int(s)] for a run of digits. *)
Definition int_of_digits (s : str) : nat :=
  fold_left (fun acc c => 10 * acc + (N.to_nat (code c) - 48)) s 0.

(** ** Cell values *)

Record date := Date { year : nat; month : nat; day : nat }.

Record time := TimeOfDay { hour : nat; minute : nat; second : nat; microsecond : nat }.

Inductive scalar :=
| VNone
| VBool (b : bool)
| VInt (z : Z)
| VFloat (v : spec_float) (shown : str)
| VStr (s : str)
| VDate (d : date)
| VDateTime (d : date) (t : time).

(** ["%0<w>d" % n] *)
Definition pad_num (w : nat) (n : nat) : str :=
  let s := str_of_nat n in repeat "0"%char (w - length s) ++ s.

(** [date.isoformat()] *)
Definition isoformat (d : date) : str :=
  pad_num 4 (year d) ++ "-" ++ pad_num 2 (month d) ++ "-" ++ pad_num 2 (day d).

(** [str(datetime)], that is [isoformat(sep=' ')] of a naive datetime. *)
Definition str_of_datetime (d : date) (t : time) : str :=
  isoformat d ++ " " ++ pad_num 2 (hour t) ++ ":" ++ pad_num 2 (minute t)
    ++ ":" ++ pad_num 2 (second t)
    ++ (if microsecond t =? 0 then [] else "." ++ pad_num 6 (microsecond t)).

(** [str(v)] *)
Definition py_str (v : scalar) : str :=
  match v with
  | VNone => "None"
  | VBool true => "True"
  | VBool false => "False"
  | VInt z => str_of_Z z
  | VFloat _ shown => shown
  | VStr s => s
  | VDate d => isoformat d
  | VDateTime d t => str_of_datetime d t
  end.

(** [v.is_integer()] and [int(v)] on the binary value of a float. *)
Definition float_is_integer (v : spec_float) : bool :=
  match v with
  | S754_zero _ => true
  | S754_infinity _ | S754_nan => false
  | S754_finite _ m e =>
      (0 <=? e)%Z || (Z.pos m mod 2 ^ (- e) =? 0)%Z
  end.

Definition float_to_int (v : spec_float) : Z :=
  match v with
  | S754_finite s m e =>
      let a := if (0 <=? e)%Z then (Z.pos m * 2 ^ e)%Z else (Z.pos m / 2 ^ (- e))%Z in
      if s then (- a)%Z else a
  | _ => 0%Z
  end.

(** Truth value of a cell, as tested by [if v] / [v and ...]. *)
Definition truthy (v : scalar) : bool :=
  match v with
  | VNone => false
  | VBool b => b
  | VInt z => negb (z =? 0)%Z
  | VFloat (S754_zero _) _ => false
  | VFloat _ _ => true
  | VStr s => negb (bool_decide (s = []))
  | VDate _ | VDateTime _ _ => true
  end.

(** ** Exceptions *)

Inductive exn :=
| ValueError_missing_id                  (* ValueError("Missing id") *)
| ValueError_invalid_id (raw : scalar)   (* ValueError(f"Invalid id value: {raw!r}") *)
| ValueError_date (y mo d : nat)         (* raised by dt.date(y, mo, d) *)
| IndexError                             (* tuple index out of range *)
| FormatError                            (* raised by str.format on a bad template *)
| SheetEmpty                             (* SystemExit("Sheet is empty") *)
| OSError (p : list str).                (* FileExistsError, NotADirectoryError, IsADirectoryError *)

Inductive result (A : Type) :=
| Ok (a : A)
| Raise (e : exn).
Arguments Ok {A} a.
Arguments Raise {A} e.

#[global] Instance result_bind : MBind result := fun A B k r =>
  match r with
  | Ok a => k a
  | Raise e => Raise e
  end.

(** ** [slug_id] *)

(** [re.sub(r"\.0$", "", s)]: the pattern matches ".0" at the very end of
    [s], or just before a final newline (that is what [$] accepts). *)
Fixpoint sub_dot0_end (s : str) : str :=
  if bool_decide (s = ".0") then []
  else if bool_decide (s = ".0" ++ [NL]) then [NL]
  else match s with
       | c :: s' => c :: sub_dot0_end s'
       | [] => []
       end.

(** [re.sub(r"\D", "", s)] *)
Definition sub_nondigits (s : str) : str := List.filter isdigit s.

Definition slug_id (raw : scalar) (width : Z) : result str :=
  match raw with
  | VNone => Raise ValueError_missing_id
  | _ =>
      let s := strip (py_str raw) in
      let s := sub_dot0_end s in
      let s := sub_nondigits s in
      match s with
      | [] => Raise (ValueError_invalid_id raw)
      | _ => Ok (zfill s width)
      end
  end.

(** ** [parse_date] *)

(** Longest run of digits at the front of [s], and what follows it. *)
Fixpoint span_digits (s : str) : str * str :=
  match s with
  | c :: s' =>
      if isdigit c then let (d, r) := span_digits s' in (c :: d, r) else ([], s)
  | [] => ([], [])
  end.

(** Where [$] matches: at the end, or before a final newline. *)
Definition at_dollar (s : str) : bool :=
  bool_decide (s = []) || bool_decide (s = [NL]).

(** The three groups of [re.match(r"^(\d{4})-(\d{1,2})-(\d{1,2})$", s)].
    A '-' is not a digit, so each group is the longest run of digits at its
    position, and the match succeeds when the runs have the lengths the
    pattern allows. *)
Definition match_ymd (s : str) : option (str * str * str) :=
  let (y, r1) := span_digits s in
  match r1 with
  | c1 :: r1' =>
      let (mo, r2) := span_digits r1' in
      match r2 with
      | c2 :: r2' =>
          let (d, r3) := span_digits r2' in
          if (length y =? 4) && Ascii.eqb c1 "-"
             && (1 <=? length mo) && (length mo <=? 2) && Ascii.eqb c2 "-"
             && (1 <=? length d) && (length d <=? 2) && at_dollar r3
          then Some (y, mo, d) else None
      | [] => None
      end
  | [] => None
  end.

Definition is_leap (y : nat) : bool :=
  (y mod 4 =? 0) && (negb (y mod 100 =? 0) || (y mod 400 =? 0)).

Definition days_in_month (y mo : nat) : nat :=
  match mo with
  | 1 | 3 | 5 | 7 | 8 | 10 | 12 => 31
  | 4 | 6 | 9 | 11 => 30
  | 2 => if is_leap y then 29 else 28
  | _ => 0
  end.

Definition valid_date (y mo d : nat) : bool :=
  (1 <=? y) && (y <=? 9999) && (1 <=? mo) && (mo <=? 12)
  && (1 <=? d) && (d <=? days_in_month y mo).

(** [dt.date(y, mo, d)]: the constructor checks its arguments. *)
Definition date_new (y mo d : nat) : result date :=
  if valid_date y mo d then Ok (Date y mo d) else Raise (ValueError_date y mo d).

Definition is_None (v : scalar) : bool :=
  match v with VNone => true | _ => false end.

Definition parse_date (raw : scalar) : result (option str) :=
  if is_None raw || bool_decide (strip (py_str raw) = []) then Ok None
  else match raw with
       | VDateTime d _ => Ok (Some (isoformat d))
       | VDate d => Ok (Some (isoformat d))
       | _ =>
           let s := strip (py_str raw) in
           match match_ymd s with
           | Some (y, mo, d) =>
               dd ← date_new (int_of_digits y) (int_of_digits mo) (int_of_digits d);
               Ok (Some (isoformat dd))
           | None => Ok (Some s)
           end
       end.

(** ** [parse_list] *)

Definition nonempty (s : str) : bool := negb (bool_decide (s = [])).

Definition parse_list (raw : scalar) (sep : ascii) : list str :=
  match raw with
  | VNone => []
  | _ =>
      let s := strip (py_str raw) in
      if nonempty s
      then map strip (List.filter (fun item => nonempty (strip item)) (split sep s))
      else []
  end.

(** ** [yaml_quote] and [to_yaml_value] *)

Definition yaml_quote (s : str) : str :=
  let s := replace DQ [BS; DQ] (replace BS [BS; BS] s) in
  [DQ] ++ s ++ [DQ].

(** A value handed to [to_yaml_value]: a scalar or a list of scalars. *)
Inductive value :=
| Scalar (x : scalar)
| Seq (l : list scalar).

Definition to_yaml_value (v : value) : str :=
  match v with
  | Scalar (VBool b) => if b then "true" else "false"
  | Scalar VNone => "null"
  | Scalar (VInt z) => str_of_Z z
  | Scalar (VFloat f shown) =>
      if float_is_integer f then str_of_Z (float_to_int f) else shown
  | Seq [] => "[]"
  | Seq l => "[" ++ join ", " (map (fun x => yaml_quote (py_str x)) l) ++ "]"
  | Scalar x => yaml_quote (py_str x)
  end.

(** ** [build_front_matter] *)

(** A dict with string keys, in insertion order. *)
Abbreviation dict := (list (str * value)).

(** [d[k] = v] *)
Fixpoint dict_set (d : dict) (k : str) (v : value) : dict :=
  match d with
  | [] => [(k, v)]
  | (k', v') :: d' =>
      if bool_decide (k' = k) then (k, v) :: d' else (k', v') :: dict_set d' k v
  end.

Definition value_is_None (v : value) : bool :=
  match v with Scalar VNone => true | _ => false end.

(** The loop over [fields.items()], appending to [lines]. *)
Fixpoint front_matter_loop (fields : dict) (lines : list str) : list str :=
  match fields with
  | [] => lines
  | (k, v) :: rest =>
      if value_is_None v then front_matter_loop rest lines
      else front_matter_loop rest (lines ++ [k ++ ": " ++ to_yaml_value v])
  end.

Definition front_matter_lines (fields : dict) : list str :=
  front_matter_loop fields ["---" : str] ++ ["---" : str].

Definition build_front_matter (fields : dict) : str :=
  join [NL] (front_matter_lines fields) ++ [NL].

(** ** The header map and [cell] *)

(** [[str(h).strip() if h is not None else "" for h in rows[0]]] *)
Definition headers_of (row0 : list scalar) : list str :=
  map (fun h => if is_None h then [] else strip (py_str h)) row0.

(** [{h: i for i, h in enumerate(headers) if h}]: a later column with the
    same header replaces an earlier one. *)
Fixpoint index_from (i : nat) (hs : list str) (m : gmap str nat) : gmap str nat :=
  match hs with
  | [] => m
  | h :: hs' => index_from (S i) hs' (if nonempty h then <[h := i]> m else m)
  end.

Definition header_index (hs : list str) : gmap str nat := index_from 0 hs ∅.

(** [row[i]] on a tuple, for [i >= 0]. *)
Definition getitem (row : list scalar) (i : nat) : result scalar :=
  match row !! i with
  | Some v => Ok v
  | None => Raise IndexError
  end.

Definition cell (hi : gmap str nat) (row : list scalar) (col_name : str)
  : result scalar :=
  match hi !! col_name with
  | None => Ok VNone
  | Some i => if length row <=? i then Ok VNone else getitem row i
  end.

(** ** The program state *)

(** A path is the list of its components. *)
Abbreviation path := (list str).

(** The file system: the directories, and the regular files with their
    content. *)
Record fsys := Fsys { dirs : gset path; files : gmap path str }.

(** What the run prints, one event per [print]. *)
Inductive event :=
| SkipExists (p : path)                    (* SKIP (exists): p *)
| Wrote (p : path)                         (* WRITE: p *)
| DryRun (p : path) (overwrite : bool)     (* DRY-RUN: would write p (overwrite=...) *)
| Done (wrote : bool) (written skipped : nat).

Record state := State {
  fs : fsys;
  out : list event;
  written : nat;
  skipped : nat
}.

(** The parsed command line.  [permalink] is the template as the function
    [wid => template.format(id=wid)], and [None] for the empty template. *)
Record args := Args {
  output_dir : path;
  id_col : str;
  title_col : str;
  date_col : str;
  layout : str;
  permalink : option (str -> result str);
  assets_base : str;
  attachments_col : str;
  tags_col : str;
  notes_col : str;
  write : bool;
  force : bool
}.

(** The non-empty prefixes of a path, shortest first. *)
Fixpoint prefixes (p : path) : list path :=
  match p with
  | [] => []
  | c :: p' => [c] :: map (cons c) (prefixes p')
  end.

(** [p.mkdir(parents=True, exist_ok=True)]: creates [p] and the ancestors
    that are missing, and raises when [p] or an ancestor is a regular file. *)
Definition mkdir_parents (p : path) (f : fsys) : result fsys :=
  if existsb (fun q => bool_decide (is_Some (files f !! q))) (prefixes p)
  then Raise (OSError p)
  else Ok (Fsys (dirs f ∪ list_to_set (prefixes p)) (files f)).

(** [p.exists()] *)
Definition path_exists (p : path) (f : fsys) : bool :=
  bool_decide (p ∈ dirs f) || bool_decide (is_Some (files f !! p)).

(** [p.write_text(content)]; the directory of [p] is the output directory,
    which [main] has created by then. *)
Definition write_text (p : path) (content : str) (f : fsys) : result fsys :=
  if bool_decide (p ∈ dirs f) then Raise (OSError p)
  else Ok (Fsys (dirs f) (<[p := content]> (files f))).

(** ** One row of [main] *)

Record document := Document {
  doc_id : str;
  doc_fm : dict;
  doc_body : list str;
  doc_content : str
}.

(** [str(v).strip() if v else None] *)
Definition stripped_or_None (v : scalar) : value :=
  if truthy v then Scalar (VStr (strip (py_str v))) else Scalar VNone.

(** [url.split("/")[-1]] *)
Definition last_segment (url : str) : str := List.last (split "/" url) [].

(** The part of the loop body between the skip test and the write policy:
    it builds the front matter, the body and the file content of a row whose
    id and title cells are [raw_id] and [raw_title]. *)
Definition build_document (a : args) (hi : gmap str nat) (today : str)
    (r : list scalar) (raw_id raw_title : scalar) : result document :=
  wid ← slug_id raw_id 5;
  let title := strip (py_str raw_title) in
  date_cell ← cell hi r (date_col a);
  parsed ← parse_date date_cell;
  let date_val := match parsed with
                  | Some s => if nonempty s then s else today
                  | None => today
                  end in
  cat_cell ← cell hi r "catalogue_date";
  catalogue_date ← parse_date cat_cell;
  primary ← cell hi r "primary";
  thumb ← cell hi r "thumb";
  series ← cell hi r "series";
  medium ← cell hi r "medium";
  dimensions ← cell hi r "dimensions";
  tags_cell ← cell hi r (tags_col a);
  let tags := parse_list tags_cell "," in
  att_cell ← cell hi r (attachments_col a);
  let attachments := parse_list att_cell ";" in
  let attachment_urls :=
    map (fun fname => assets_base a ++ "/" ++ wid ++ "/files/" ++ fname) attachments in
  layout_cell ← cell hi r "layout";
  let fm : dict :=
    [ ("title" : str, Scalar (VStr title));
      ("date" : str, Scalar (VStr date_val));
      ("layout" : str,
        Scalar (VStr (if truthy layout_cell then strip (py_str layout_cell) else layout a)));
      ("work_id" : str, Scalar (VStr wid));
      ("catalogue_date" : str,
        match catalogue_date with Some s => Scalar (VStr s) | None => Scalar VNone end);
      ("series" : str, stripped_or_None series);
      ("medium" : str, stripped_or_None medium);
      ("dimensions" : str, stripped_or_None dimensions);
      ("primary" : str, stripped_or_None primary);
      ("thumb" : str, stripped_or_None thumb);
      ("tags" : str, match tags with [] => Scalar VNone | _ => Seq (map VStr tags) end) ] in
  fm ← match permalink a with
       | Some format => link ← format wid; Ok (dict_set fm "permalink" (Scalar (VStr link)))
       | None => Ok fm
       end;
  notes ← cell hi r (notes_col a);
  let body_notes : list str :=
    if truthy notes && nonempty (strip (py_str notes))
    then [strip (py_str notes); []] else [] in
  let body_supplements : list str :=
    match attachment_urls with
    | [] => []
    | _ => ["## Supplements" : str]
           ++ map (fun url => "- [" ++ last_segment url ++ "](" ++ url ++ ")") attachment_urls
           ++ [[]]
    end in
  let body_lines := body_notes ++ body_supplements in
  let content := build_front_matter fm ++ rstrip (join [NL] body_lines) ++ [NL] in
  Ok (Document wid fm body_lines content).

Definition count_skipped (st : state) : state :=
  State (fs st) (out st) (written st) (S (skipped st)).

(** The write policy at the end of the loop body. *)
Definition write_policy (a : args) (d : document) (st : state) : result state :=
  let out_path := output_dir a ++ [doc_id d ++ ".md"] in
  let exists_ := path_exists out_path (fs st) in
  if exists_ && negb (force a) then
    Ok (State (fs st) (out st ++ [SkipExists out_path]) (written st) (S (skipped st)))
  else if write a then
    f ← write_text out_path (doc_content d) (fs st);
    Ok (State f (out st ++ [Wrote out_path]) (S (written st)) (skipped st))
  else
    Ok (State (fs st) (out st ++ [DryRun out_path exists_]) (S (written st)) (skipped st)).

(** The test [raw_id is None or raw_title is None or str(raw_title).strip() == ""]. *)
Definition missing_required (raw_id raw_title : scalar) : bool :=
  is_None raw_id || is_None raw_title || bool_decide (strip (py_str raw_title) = []).

(** The body of the loop over the data rows. *)
Definition process_row (a : args) (hi : gmap str nat) (today : str)
    (r : list scalar) (st : state) : result state :=
  raw_id ← cell hi r (id_col a);
  raw_title ← cell hi r (title_col a);
  if missing_required raw_id raw_title then Ok (count_skipped st)
  else
    d ← build_document a hi today r raw_id raw_title;
    write_policy a d st.

(** The loop: an exception leaves the loop with the state reached so far. *)
Fixpoint process_rows (a : args) (hi : gmap str nat) (today : str)
    (rows : list (list scalar)) (st : state) : state * option exn :=
  match rows with
  | [] => (st, None)
  | r :: rows' =>
      match process_row a hi today r st with
      | Ok st' => process_rows a hi today rows' st'
      | Raise e => (st, Some e)
      end
  end.

(** [main], from the rows of the sheet on: [rows] is
    [list(ws.iter_rows(values_only=True))], [today] is
    [dt.date.today().isoformat()] and [f] is the file system the run
    starts in.  The result is the final state and the exception that ended
    the run, if any. *)
Definition main (a : args) (today : str) (rows : list (list scalar)) (f : fsys)
  : state * option exn :=
  match rows with
  | [] => (State f [] 0 0, Some SheetEmpty)
  | row0 :: data =>
      let hi := header_index (headers_of row0) in
      match mkdir_parents (output_dir a) f with
      | Raise e => (State f [] 0 0, Some e)
      | Ok f1 =>
          match process_rows a hi today data (State f1 [] 0 0) with
          | (st, None) =>
              (State (fs st) (out st ++ [Done (write a) (written st) (skipped st)])
                 (written st) (skipped st), None)
          | (st, Some e) => (st, Some e)
          end
      end
  end.

(** ** The described behaviour *)

(** The failures the description names.  Both are [ValueError]s in the
    script: the ones [slug_id] raises are [InvalidIdentifier], the one the
    date constructor raises is [InvalidDate]. *)
Inductive failure := InvalidIdentifier | InvalidDate | OtherFailure.

Inductive outcome (A : Type) :=
| Returns (a : A)
| Fails (f : failure).
Arguments Returns {A} a.
Arguments Fails {A} f.

Definition failure_of (e : exn) : failure :=
  match e with
  | ValueError_missing_id | ValueError_invalid_id _ => InvalidIdentifier
  | ValueError_date _ _ _ => InvalidDate
  | _ => OtherFailure
  end.

Definition observe {A} (r : result A) : outcome A :=
  match r with
  | Ok a => Returns a
  | Raise e => Fails (failure_of e)
  end.

(** Strip a trailing literal suffix. *)
Definition remove_suffix (suf s : str) : str :=
  if bool_decide (suf `suffix_of` s) then take (length s - length suf) s else s.

(** Pad on the left up to a width. *)
Definition pad_left (c : ascii) (width : Z) (s : str) : str :=
  repeat c (Z.to_nat (width - Z.of_nat (length s))) ++ s.

Definition digits_or_fail (width : Z) (s : str) : outcome str :=
  match List.filter isdigit s with
  | [] => Fails InvalidIdentifier
  | ds => Returns (pad_left "0" width ds)
  end.

(** [normalize_id] as described: convert to a string, strip a trailing
    ".0", remove every non-digit, pad with zeros; fail when no digit
    remains. *)
Definition normalize_id_spec (raw : scalar) (width : Z) : outcome str :=
  digits_or_fail width (remove_suffix ".0" (py_str raw)).

(** The same, with the string trimmed before the suffix is stripped. *)
Definition normalize_id_trimmed (raw : scalar) (width : Z) : outcome str :=
  digits_or_fail width (remove_suffix ".0" (strip (py_str raw))).

(** The loose YYYY-M-D shape: three runs of digits separated by '-', of
    lengths 4, 1 or 2, and 1 or 2. *)
Definition loose_ymd (s : str) : option (nat * nat * nat) :=
  match split "-" s with
  | [y; mo; d] =>
      if forallb isdigit y && (length y =? 4)
         && forallb isdigit mo && (1 <=? length mo) && (length mo <=? 2)
         && forallb isdigit d && (1 <=? length d) && (length d <=? 2)
      then Some (int_of_digits y, int_of_digits mo, int_of_digits d)
      else None
  | _ => None
  end.

(** Reformat a string of the loose shape, or pass [other] through. *)
Definition reformat_or_pass (s other : str) : outcome (option str) :=
  match loose_ymd s with
  | Some (y, mo, d) =>
      if valid_date y mo d then Returns (Some (isoformat (Date y mo d)))
      else Fails InvalidDate
  | None => Returns (Some other)
  end.

Definition blank (raw : scalar) : bool :=
  is_None raw || bool_decide (strip (py_str raw) = []).

(** [normalize_date] as described: absent for absent or blank input, the
    ISO date of a date or datetime, the reformatted date of a string of the
    loose shape, and every other string unmodified. *)
Definition normalize_date_spec (raw : scalar) : outcome (option str) :=
  if blank raw then Returns None
  else match raw with
       | VDate d | VDateTime d _ => Returns (Some (isoformat d))
       | _ => reformat_or_pass (py_str raw) (py_str raw)
       end.

(** The same on the trimmed string: the shape is tested after trimming and
    the string passed through is the trimmed one. *)
Definition normalize_date_trimmed (raw : scalar) : outcome (option str) :=
  if blank raw then Returns None
  else match raw with
       | VDate d | VDateTime d _ => Returns (Some (isoformat d))
       | _ => reformat_or_pass (strip (py_str raw)) (strip (py_str raw))
       end.

(** Escape backslash and double quote, in one pass. *)
Definition escape (s : str) : str :=
  flat_map (fun c => if Ascii.eqb c BS then [BS; BS]
                     else if Ascii.eqb c DQ then [BS; DQ] else [c]) s.

Definition quoted (s : str) : str := DQ :: escape s ++ [DQ].

Definition quoted_list (l : list scalar) : str :=
  match l with
  | [] => "[]"
  | _ => "[" ++ join ", " (map (fun x => quoted (py_str x)) l) ++ "]"
  end.

(** [serialize_scalar] as described: booleans, absent, integer-valued
    floats and sequences have their own forms, every other value is a quoted
    string. *)
Definition serialize_scalar_spec (v : value) : str :=
  match v with
  | Scalar (VBool true) => "true"
  | Scalar (VBool false) => "false"
  | Scalar VNone => "null"
  | Seq l => quoted_list l
  | Scalar x =>
      match x with
      | VFloat f _ =>
          if float_is_integer f then str_of_Z (float_to_int f) else quoted (py_str x)
      | _ => quoted (py_str x)
      end
  end.

(** The same, with the other numbers in their default decimal form. *)
Definition serialize_scalar_numbers (v : value) : str :=
  match v with
  | Scalar (VBool true) => "true"
  | Scalar (VBool false) => "false"
  | Scalar VNone => "null"
  | Seq l => quoted_list l
  | Scalar x =>
      match x with
      | VInt z => str_of_Z z
      | VFloat f shown =>
          if float_is_integer f then str_of_Z (float_to_int f) else shown
      | _ => quoted (py_str x)
      end
  end.

(** The numbers of the three groups of a match. *)
Definition ymd_numbers (g : str * str * str) : nat * nat * nat :=
  let '(y, mo, d) := g in (int_of_digits y, int_of_digits mo, int_of_digits d).

(** Position of the last header equal to [col]. *)
Fixpoint find_last (col : str) (hs : list str) : option nat :=
  match hs with
  | [] => None
  | h :: hs' =>
      match find_last col hs' with
      | Some j => Some (S j)
      | None => if bool_decide (h = col) then Some 0 else None
      end
  end.

(** Number of newlines at the end of a text. *)
Fixpoint leading_newlines (s : str) : nat :=
  match s with
  | c :: s' => if Ascii.eqb c NL then S (leading_newlines s') else 0
  | [] => 0
  end.

Definition trailing_newlines (s : str) : nat := leading_newlines (rev s).

(** A run of the default configuration over one sheet, used in the examples. *)
Definition default_args (write_mode force_mode : bool) : args :=
  Args ["works" : str] "id" "title" "date" "theme" None "/assets/works"
       "attachments" "tags" "notes" write_mode force_mode.

Definition empty_fs : fsys := Fsys ∅ ∅.

(** ** The loop body, by parts *)

(** The value [cell] returns. *)
Definition cell_value (hi : gmap str nat) (row : list scalar) (col_name : str) : scalar :=
  match hi !! col_name with
  | None => VNone
  | Some i => default VNone (row !! i)
  end.

(** The [fm] literal of a row, from the values that go into it. *)
Definition row_front_matter (a : args) (hi : gmap str nat) (today : str)
    (r : list scalar) (wid title : str) (parsed catalogue_date : option str) : dict :=
  let v := cell_value hi r in
  [ ("title" : str, Scalar (VStr title));
    ("date" : str,
      Scalar (VStr (match parsed with
                    | Some s => if nonempty s then s else today
                    | None => today
                    end)));
    ("layout" : str,
      Scalar (VStr (if truthy (v "layout") then strip (py_str (v "layout")) else layout a)));
    ("work_id" : str, Scalar (VStr wid));
    ("catalogue_date" : str,
      match catalogue_date with Some s => Scalar (VStr s) | None => Scalar VNone end);
    ("series" : str, stripped_or_None (v "series"));
    ("medium" : str, stripped_or_None (v "medium"));
    ("dimensions" : str, stripped_or_None (v "dimensions"));
    ("primary" : str, stripped_or_None (v "primary"));
    ("thumb" : str, stripped_or_None (v "thumb"));
    ("tags" : str,
      let tags := parse_list (v (tags_col a)) "," in
      match tags with [] => Scalar VNone | _ => Seq (map VStr tags) end) ].

(** The assignment of [fm["permalink"]]. *)
Definition with_permalink (a : args) (wid : str) (fm : dict) : result dict :=
  match permalink a with
  | Some format => link ← format wid; Ok (dict_set fm "permalink" (Scalar (VStr link)))
  | None => Ok fm
  end.

(** The notes part and the supplements part of [body_lines]. *)
Definition body_notes (notes : scalar) : list str :=
  if truthy notes && nonempty (strip (py_str notes))
  then [strip (py_str notes); []] else [].

Definition body_supplements (attachment_urls : list str) : list str :=
  match attachment_urls with
  | [] => []
  | _ => ["## Supplements" : str]
         ++ map (fun url => "- [" ++ last_segment url ++ "](" ++ url ++ ")") attachment_urls
         ++ [[]]
  end.

Definition row_body (a : args) (hi : gmap str nat) (r : list scalar) (wid : str) : list str :=
  body_notes (cell_value hi r (notes_col a))
  ++ body_supplements
       (map (fun fname => assets_base a ++ "/" ++ wid ++ "/files/" ++ fname)
            (parse_list (cell_value hi r (attachments_col a)) ";")).

(** [d.get(k)] *)
Fixpoint dict_get (d : dict) (k : str) : option value :=
  match d with
  | [] => None
  | (k', v) :: d' => if bool_decide (k' = k) then Some v else dict_get d' k
  end.

(** One line of the metadata block. *)
Definition render_line (kv : str * value) : str :=
  fst kv ++ ": " ++ to_yaml_value (snd kv).

Definition not_None (kv : str * value) : bool := negb (value_is_None (snd kv)).

(** The keys that appear in the metadata block of a dict. *)
Definition emitted_keys (fields : dict) : list str :=
  map fst (List.filter not_None fields).

(** The keys of the [fm] literal, in order. *)
Definition front_matter_keys : list str :=
  ["title" : str; "date" : str; "layout" : str; "work_id" : str;
   "catalogue_date" : str; "series" : str; "medium" : str; "dimensions" : str;
   "primary" : str; "thumb" : str; "tags" : str].

(** The values of the [fm] of a row are strings, non-empty lists or [None]. *)
Definition plain_value (v : value) : Prop :=
  v = Scalar VNone \/ (exists s, v = Scalar (VStr s)) \/ (exists x l, v = Seq (x :: l)).

(** The descriptive columns. *)
Definition descriptive_keys : list str :=
  ["series" : str; "medium" : str; "dimensions" : str; "primary" : str; "thumb" : str].

(** The path of the page of an id. *)
Definition page_path (a : args) (wid : str) : path := output_dir a ++ [wid ++ ".md"].

(** [f'] is [f] with pages added: the directories are the same, and every
    path holds what it held, or held nothing and is the path of a page. *)
Definition extends (a : args) (f f' : fsys) : Prop :=
  dirs f' = dirs f
  /\ forall p, files f' !! p = files f !! p
               \/ (files f !! p = None /\ (p ∉ dirs f)
                   /\ (exists wid, p = page_path a wid)).

(** The state a run of [main] starts its loop in. *)
Definition initial_state (f : fsys) : state := State f [] 0 0.

(** The sheet of the examples: a header row and one row of data. *)
Definition example_header : list scalar :=
  [VStr "id"; VStr "title"; VStr "date"; VStr "tags"; VStr "attachments"; VStr "notes"].

Definition example_row : list scalar :=
  [VFloat (S754_finite false 6350779162034176 (-44)) "361.0"; VStr "Untitled";
   VStr "2023-5-1"; VStr "red,blue"; VStr "a.pdf;b.pdf"; VStr "Some notes"].

(** A row with an id and a title and nothing else. *)
Definition bare_row : list scalar := [VInt 361; VStr "Untitled"].

Definition example_index : gmap str nat := header_index (headers_of example_header).

(** ** Further notions *)

(** A cell as the reader of the sheet delivers it: the fields of a date
    object are those of a calendar date. *)
Definition well_formed (v : scalar) : Prop :=
  match v with
  | VDate d | VDateTime d _ => valid_date (year d) (month d) (day d) = true
  | _ => True
  end.

(** A list item as [parse_list] delivers it: not empty, trimmed, and without
    the separator. *)
Definition clean_item (sep : ascii) (x : str) : Prop :=
  x <> [] /\ strip x = x /\ sep ∉ x.

(** The event of a [WRITE:] line. *)
Definition is_Wrote (ev : event) : bool :=
  match ev with Wrote _ => true | _ => false end.


(** What a row asks the write policy to write: nothing for a row that is
    skipped for a missing id or title, and otherwise the path and the
    content of its page. *)
Definition row_page (a : args) (hi : gmap str nat) (today : str) (r : list scalar)
  : result (option (path * str)) :=
  let raw_id := cell_value hi r (id_col a) in
  let raw_title := cell_value hi r (title_col a) in
  if missing_required raw_id raw_title then Ok None
  else
    d ← build_document a hi today r raw_id raw_title;
    Ok (Some (page_path a (doc_id d), doc_content d)).



(** The paths a run writes to: a name of five or more digits with the
    extension md, in the output directory. *)
Definition page_shaped (a : args) (p : path) : Prop :=
  exists wid, p = output_dir a ++ [wid ++ ".md"]
              /\ forallb isdigit wid = true /\ 5 <= length wid.

(** * Properties *)

(** ** Trimming *)

Lemma isspace_NL : isspace NL = true.
Proof. reflexivity. Qed.

Lemma isdigit_not_space c : isdigit c = true -> isspace c = false.
Proof.
  unfold isdigit, isspace. intros H.
  apply andb_true_iff in H as [H1 H2].
  apply N.leb_le in H1. apply N.leb_le in H2.
  repeat match goal with
         | |- context [(?a <=? ?b)%N] => destruct (N.leb_spec a b)
         | |- context [(?a =? ?b)%N] => destruct (N.eqb_spec a b)
         end; simpl; try reflexivity; lia.
Qed.

Lemma lstrip_head s :
  lstrip s = [] \/ exists c t, lstrip s = c :: t /\ isspace c = false.
Proof.
  induction s as [|c s IH]; simpl; [by left|].
  destruct (isspace c) eqn:E; [exact IH|].
  right. by exists c, s.
Qed.

Lemma lstrip_keeps_last t c :
  isspace c = false -> exists t', lstrip (t ++ [c]) = t' ++ [c].
Proof.
  intros Hc. induction t as [|x t IH]; simpl.
  - rewrite Hc. by exists [].
  - destruct (isspace x); [exact IH|]. by exists (x :: t).
Qed.

Lemma rstrip_last s :
  rstrip s = [] \/ exists t c, rstrip s = t ++ [c] /\ isspace c = false.
Proof.
  unfold rstrip. destruct (lstrip_head (rev s)) as [->|(c & t & -> & Hc)].
  - by left.
  - right. exists (rev t), c. by rewrite <- Hc.
Qed.

Lemma strip_last s :
  strip s = [] \/ exists t c, strip s = t ++ [c] /\ isspace c = false.
Proof.
  unfold strip. destruct (rstrip_last s) as [->|(t & c & -> & Hc)].
  - by left.
  - right. destruct (lstrip_keeps_last t c Hc) as [t' ->]. by exists t', c.
Qed.

Lemma strip_head s :
  strip s = [] \/ exists c t, strip s = c :: t /\ isspace c = false.
Proof. apply lstrip_head. Qed.

Lemma strip_no_final_newline s t : strip s <> t ++ [NL].
Proof.
  intros E. destruct (strip_last s) as [H|(t' & c & H & Hc)]; rewrite H in E.
  - by destruct t.
  - apply app_inj_tail in E as [_ ->]. by rewrite isspace_NL in Hc.
Qed.

(** ** The suffix pattern of [slug_id] *)

Lemma sub_dot0_end_eq s :
  sub_dot0_end s =
    if bool_decide (s = ".0") then []
    else if bool_decide (s = ".0" ++ [NL]) then [NL]
    else match s with
         | c :: s' => c :: sub_dot0_end s'
         | [] => []
         end.
Proof. by destruct s. Qed.

Lemma sub_dot0_end_suffix s :
  (forall t, s <> t ++ [NL]) -> sub_dot0_end s = remove_suffix ".0" s.
Proof.
  induction s as [|c s IH]; intros Hnl.
  - reflexivity.
  - rewrite sub_dot0_end_eq.
    case_bool_decide as E1; [by rewrite E1|].
    case_bool_decide as E2; [exfalso; apply (Hnl ".0"); by rewrite E2|].
    rewrite IH by (intros t Ht; apply (Hnl (c :: t)); by rewrite Ht).
    unfold remove_suffix.
    destruct (decide (".0" `suffix_of` s)) as [S1|S1].
    + rewrite (bool_decide_eq_true_2 _ S1).
      rewrite bool_decide_eq_true_2 by by apply suffix_cons_r.
      destruct S1 as [k Hk]. simpl length.
      assert (2 <= length s) by (rewrite Hk, length_app; simpl; lia).
      by replace (S (length s) - 2) with (S (length s - 2)) by lia.
    + rewrite (bool_decide_eq_false_2 _ S1).
      rewrite bool_decide_eq_false_2; [done|].
      intros [H|H]%suffix_cons_inv; [by rewrite <- H in E1 | done].
Qed.

(** ** Strings of digits *)

Lemma filter_all_digits s : forallb isdigit (List.filter isdigit s) = true.
Proof.
  induction s as [|c s IH]; simpl; [done|].
  destruct (isdigit c) eqn:E; simpl; [by rewrite E|done].
Qed.

Lemma filter_digits_id s : forallb isdigit s = true -> List.filter isdigit s = s.
Proof.
  induction s as [|c s IH]; simpl; [done|].
  intros [-> Hs]%andb_true_iff. by rewrite IH.
Qed.

Lemma filter_digits_exists s :
  existsb isdigit s = true -> List.filter isdigit s <> [].
Proof.
  induction s as [|c s IH]; simpl; [done|].
  destruct (isdigit c); simpl; [done|exact IH].
Qed.

Lemma forallb_digits_app s t :
  forallb isdigit (s ++ t) = forallb isdigit s && forallb isdigit t.
Proof. apply forallb_app. Qed.

Lemma forallb_digits_rev s : forallb isdigit s = true -> forallb isdigit (rev s) = true.
Proof.
  rewrite !forallb_forall. intros H c Hc. apply H. by apply in_rev.
Qed.

Lemma forallb_digits_zeros n : forallb isdigit (repeat "0"%char n) = true.
Proof. induction n; simpl; done. Qed.

Lemma lstrip_digits s : forallb isdigit s = true -> lstrip s = s.
Proof.
  destruct s as [|c s]; simpl; [done|].
  intros [Hc _]%andb_true_iff. by rewrite (isdigit_not_space c Hc).
Qed.

Lemma strip_digits s : forallb isdigit s = true -> strip s = s.
Proof.
  intros H. unfold strip, rstrip.
  rewrite (lstrip_digits (rev s)) by by apply forallb_digits_rev.
  rewrite rev_involutive. by apply lstrip_digits.
Qed.

Lemma remove_suffix_digits s :
  forallb isdigit s = true -> remove_suffix ".0" s = s.
Proof.
  intros H. unfold remove_suffix.
  rewrite bool_decide_eq_false_2; [done|].
  intros [k ->]. rewrite forallb_digits_app in H.
  apply andb_true_iff in H as [_ H]. discriminate H.
Qed.

Lemma zfill_digits s w : forallb isdigit s = true -> zfill s w = pad_left "0" w s.
Proof.
  unfold zfill, pad_left. destruct s as [|c s]; simpl forallb.
  - intros _. by rewrite app_nil_r.
  - intros [Hc _]%andb_true_iff.
    destruct (Ascii.eqb_spec c "+") as [->|_]; [discriminate Hc|].
    destruct (Ascii.eqb_spec c "-") as [->|_]; [discriminate Hc|]. done.
Qed.

Lemma pad_left_padded c w s : pad_left c w (pad_left c w s) = pad_left c w s.
Proof.
  unfold pad_left at 1. 
  replace (Z.to_nat _) with 0; [done|].
  unfold pad_left. rewrite length_app, repeat_length. lia.
Qed.

Lemma slug_id_not_None raw w :
  is_None raw = false ->
  slug_id raw w =
    match sub_nondigits (sub_dot0_end (strip (py_str raw))) with
    | [] => Raise (ValueError_invalid_id raw)
    | s => Ok (zfill s w)
    end.
Proof.
  destruct raw; [done|..]; intros _; unfold slug_id; cbv zeta;
    by destruct (sub_nondigits _).
Qed.

(** [slug_id] in terms of the digits that remain. *)
Lemma slug_id_digits raw w :
  is_None raw = false ->
  slug_id raw w =
    match List.filter isdigit (remove_suffix ".0" (strip (py_str raw))) with
    | [] => Raise (ValueError_invalid_id raw)
    | ds => Ok (pad_left "0" w ds)
    end.
Proof.
  intros H. rewrite (slug_id_not_None _ _ H). unfold sub_nondigits.
  rewrite sub_dot0_end_suffix by (intros t; apply strip_no_final_newline).
  pose proof (filter_all_digits (remove_suffix ".0" (strip (py_str raw)))) as Hd.
  destruct (List.filter isdigit _) as [|c ds]; [done|].
  by rewrite zfill_digits.
Qed.

(** C1 (as amended).  [slug_id] computes what [normalize_id] is described to
    compute once the string is trimmed first: convert the raw value to a
    string, trim surrounding whitespace, strip a trailing ".0", remove every
    non-digit character and pad with zeros to the width, failing with
    [InvalidIdentifier] when no digit remains.  In particular
    normalize_id("361.0", 5) and normalize_id(361, 5) are "00361" and
    normalize_id("abc", 5) fails with [InvalidIdentifier]. *)
Theorem slug_id_refines_normalize_id_trimmed :
  (forall raw width, observe (slug_id raw width) = normalize_id_trimmed raw width)
  /\ slug_id (VStr "361.0") 5 = Ok ("00361" : str)
  /\ slug_id (VInt 361) 5 = Ok ("00361" : str)
  /\ observe (slug_id (VStr "abc") 5) = Fails InvalidIdentifier.
Proof.
  split; [|by vm_compute].
  intros raw w. destruct (is_None raw) eqn:E.
  - by destruct raw.
  - rewrite (slug_id_digits _ _ E). unfold normalize_id_trimmed, digits_or_fail.
    by destruct (List.filter isdigit _).
Qed.

(** C1 (as stated) fails on a cell with whitespace after the ".0": the
    described steps keep the final zero as a digit, the script trims first
    and drops it. *)
Lemma normalize_id_spec_trailing_space :
  normalize_id_spec (VStr "361.0 ") 5 = Returns ("03610" : str)
  /\ observe (slug_id (VStr "361.0 ") 5) = Returns ("00361" : str).
Proof. by vm_compute. Qed.

(** C9 (as amended).  Whenever the raw value still contains a digit after
    trimming and stripping a trailing ".0", [slug_id] succeeds and maps its
    own output to itself at the same width. *)
Theorem slug_id_idempotent raw width :
  existsb isdigit (remove_suffix ".0" (strip (py_str raw))) = true ->
  exists s, slug_id raw width = Ok s /\ slug_id (VStr s) width = Ok s.
Proof.
  intros Hd.
  assert (is_None raw = false) as Hn by (by destruct raw).
  rewrite (slug_id_digits _ _ Hn).
  pose proof (filter_digits_exists _ Hd) as Hne.
  pose proof (filter_all_digits (remove_suffix ".0" (strip (py_str raw)))) as Hall.
  destruct (List.filter isdigit _) as [|c ds] eqn:E; [done|].
  set (d := c :: ds) in *. exists (pad_left "0" width d). split; [done|].
  assert (forallb isdigit (pad_left "0" width d) = true) as Hp.
  { unfold pad_left. by rewrite forallb_digits_app, forallb_digits_zeros, Hall. }
  rewrite slug_id_digits by done. simpl py_str.
  rewrite strip_digits, remove_suffix_digits, filter_digits_id by done.
  assert (pad_left "0" width d <> []) as Hp0.
  { unfold pad_left, d. by destruct (repeat _ _). }
  destruct (pad_left "0" width d) as [|c' p] eqn:Ep; [done|].
  by rewrite <- Ep, pad_left_padded.
Qed.

(** The amended C9 at a cell with text around the number. *)
Lemma slug_id_idempotent_witness :
  exists s, slug_id (VStr " no. 361.0 ") 5 = Ok s /\ slug_id (VStr s) 5 = Ok s.
Proof. apply (slug_id_idempotent (VStr " no. 361.0 ") 5). reflexivity. Defined.

(** C9 (as stated) fails on ".0": the cell contains a digit, and [slug_id]
    raises on it, so there is no output to compare. *)
Lemma slug_id_dot_zero_raises :
  existsb isdigit (py_str (VStr ".0")) = true
  /\ slug_id (VStr ".0") 5 = Raise (ValueError_invalid_id (VStr ".0")).
Proof. by vm_compute. Qed.

(** ** The date pattern *)

Lemma span_digits_spec s d r :
  span_digits s = (d, r) ->
  s = d ++ r /\ forallb isdigit d = true
  /\ match r with [] => True | c :: _ => isdigit c = false end.
Proof.
  revert d r. induction s as [|c s IH]; intros d r; simpl.
  - by intros [= <- <-].
  - destruct (isdigit c) eqn:E.
    + destruct (span_digits s) as [d' r'] eqn:E'. intros [= <- <-].
      destruct (IH _ _ eq_refl) as (-> & ? & ?). simpl. by rewrite E.
    + intros [= <- <-]. simpl. by rewrite E.
Qed.

Lemma span_digits_app d r :
  forallb isdigit d = true ->
  match r with [] => True | c :: _ => isdigit c = false end ->
  span_digits (d ++ r) = (d, r).
Proof.
  intros Hd Hr. induction d as [|c d IH]; simpl in *.
  - destruct r as [|c r]; simpl; [done|]. by rewrite Hr.
  - apply andb_true_iff in Hd as [-> Hd]. by rewrite IH.
Qed.

Lemma split_nonempty sep s : split sep s <> [].
Proof.
  destruct s as [|c s]; simpl; [done|].
  destruct (Ascii.eqb c sep); [done|]. by destruct (split sep s).
Qed.

Lemma join_split sep s : join [sep] (split sep s) = s.
Proof.
  induction s as [|c s IH]; simpl; [done|].
  pose proof (split_nonempty sep s) as Hne.
  destruct (Ascii.eqb_spec c sep) as [->|_].
  - destruct (split sep s) as [|p ps]; [done|]. simpl in *. by rewrite IH.
  - destruct (split sep s) as [|p ps]; [done|].
    destruct ps; simpl in *; by rewrite <- IH.
Qed.

Lemma digit_not_dash c : isdigit c = true -> Ascii.eqb c "-" = false.
Proof. destruct (Ascii.eqb_spec c "-") as [->|]; [discriminate|done]. Qed.

Lemma split_digits d : forallb isdigit d = true -> split "-" d = [d].
Proof.
  induction d as [|c d IH]; simpl; [done|].
  intros [Hc Hd]%andb_true_iff. by rewrite (digit_not_dash _ Hc), IH.
Qed.

Lemma split_digits_dash d r :
  forallb isdigit d = true -> split "-" (d ++ "-"%char :: r) = d :: split "-" r.
Proof.
  induction d as [|c d IH]; simpl; [done|].
  intros [Hc Hd]%andb_true_iff. by rewrite (digit_not_dash _ Hc), IH.
Qed.

(** A match of the pattern is a string of the loose shape. *)
Lemma match_ymd_is_loose s g :
  (forall t, s <> t ++ [NL]) ->
  match_ymd s = Some g -> loose_ymd s = Some (ymd_numbers g).
Proof.
  intros Hnl. unfold match_ymd.
  destruct (span_digits s) as [y r1] eqn:E1.
  destruct r1 as [|c1 r1]; [done|].
  destruct (span_digits r1) as [mo r2] eqn:E2.
  destruct r2 as [|c2 r2]; [done|].
  destruct (span_digits r2) as [d r3] eqn:E3.
  destruct (_ && _) eqn:C; [|done]. intros [= <-].
  repeat (apply andb_true_iff in C as [C ?]).
  apply span_digits_spec in E1 as (-> & Hy & _).
  apply span_digits_spec in E2 as (-> & Hmo & _).
  apply span_digits_spec in E3 as (-> & Hd & _).
  destruct (Ascii.eqb_spec c1 "-") as [->|]; [|done].
  destruct (Ascii.eqb_spec c2 "-") as [->|]; [|done].
  assert (r3 = []) as ->.
  { match goal with H : at_dollar r3 = true |- _ =>
      apply orb_true_iff in H as [H|H]; apply bool_decide_eq_true_1 in H end;
      [done|subst r3].
    exfalso. apply (Hnl (y ++ "-"%char :: mo ++ "-"%char :: d)).
    rewrite <- app_assoc. simpl. by rewrite <- app_assoc. }
  rewrite app_nil_r. unfold loose_ymd.
  rewrite (split_digits_dash y (mo ++ "-"%char :: d)) by done.
  rewrite (split_digits_dash mo d), split_digits by done.
  unfold ymd_numbers.
  repeat match goal with H : _ = true |- _ => rewrite H; clear H end. done.
Qed.

(** A string of the loose shape matches the pattern, with the same groups. *)
Lemma loose_is_match_ymd s n :
  loose_ymd s = Some n -> exists g, match_ymd s = Some g /\ n = ymd_numbers g.
Proof.
  unfold loose_ymd. pose proof (join_split "-" s) as Hs.
  destruct (split "-" s) as [|y [|mo [|d [|? ?]]]]; try done.
  destruct (_ && _) eqn:C; [|done]. intros [= <-].
  repeat (apply andb_true_iff in C as [C ?]).
  exists (y, mo, d). split; [|done].
  subst s. simpl. unfold match_ymd.
  rewrite (span_digits_app y ("-"%char :: mo ++ "-"%char :: d)) by done.
  rewrite (span_digits_app mo ("-"%char :: d)) by done.
  replace (span_digits d) with (d, @nil ascii)
    by (by rewrite <- (span_digits_app d []), app_nil_r).
  repeat match goal with H : _ = true |- _ => rewrite H; clear H end. done.
Qed.

Lemma parse_date_not_blank raw :
  blank raw = false ->
  parse_date raw =
    match raw with
    | VDateTime d _ | VDate d => Ok (Some (isoformat d))
    | _ =>
        match match_ymd (strip (py_str raw)) with
        | Some (y, mo, d) =>
            dd ← date_new (int_of_digits y) (int_of_digits mo) (int_of_digits d);
            Ok (Some (isoformat dd))
        | None => Ok (Some (strip (py_str raw)))
        end
    end.
Proof. unfold blank, parse_date. intros ->. by destruct raw. Qed.

Lemma reformat_or_pass_match s :
  (forall t, s <> t ++ [NL]) ->
  observe (match match_ymd s with
           | Some (y, mo, d) =>
               dd ← date_new (int_of_digits y) (int_of_digits mo) (int_of_digits d);
               Ok (Some (isoformat dd))
           | None => Ok (Some s)
           end) = reformat_or_pass s s.
Proof.
  intros Hnl. unfold reformat_or_pass.
  destruct (match_ymd s) as [[[y mo] d]|] eqn:E.
  - rewrite (match_ymd_is_loose _ _ Hnl E). simpl. unfold date_new.
    by destruct (valid_date _ _ _).
  - destruct (loose_ymd s) as [n|] eqn:L; [|done].
    destruct (loose_is_match_ymd _ _ L) as (g & Hg & _). congruence.
Qed.

(** C2 (as amended).  [parse_date] returns absent for absent or blank
    input, the ISO date of a date or datetime value, and otherwise works on
    the trimmed string: a string of the loose YYYY-M-D shape is reformatted
    to zero-padded ISO, failing with [InvalidDate] when the numbers are not
    a calendar date (month 13, say), and any other string is passed through
    trimmed. *)
Theorem parse_date_refines_normalize_date_trimmed :
  (forall raw, observe (parse_date raw) = normalize_date_trimmed raw)
  /\ parse_date (VStr "2024-3-5") = Ok (Some ("2024-03-05" : str))
  /\ parse_date (VStr "") = Ok None
  /\ parse_date (VStr "not a date") = Ok (Some ("not a date" : str))
  /\ observe (parse_date (VStr "2024-13-5")) = Fails InvalidDate.
Proof.
  split; [|by vm_compute].
  intros raw. unfold normalize_date_trimmed.
  destruct (blank raw) eqn:B.
  - unfold parse_date. unfold blank in B. by rewrite B.
  - rewrite (parse_date_not_blank _ B).
    destruct raw; try done;
      apply reformat_or_pass_match; intros t; apply strip_no_final_newline.
Qed.

(** C2 (as stated) fails on a string with surrounding whitespace: it is
    passed through trimmed, not unmodified. *)
Lemma normalize_date_spec_untrimmed :
  normalize_date_spec (VStr "  not a date ") = Returns (Some ("  not a date " : str))
  /\ observe (parse_date (VStr "  not a date ")) = Returns (Some ("not a date" : str)).
Proof. by vm_compute. Qed.

(** ** Quoting *)

Lemma replace_app old new s t :
  replace old new (s ++ t) = replace old new s ++ replace old new t.
Proof. apply flat_map_app. Qed.

(** The two [replace] passes of [yaml_quote] are one pass of [escape]. *)
Lemma yaml_quote_quoted s : yaml_quote s = quoted s.
Proof.
  unfold yaml_quote, quoted. simpl. f_equal. f_equal.
  induction s as [|c s IH]; [done|].
  change (c :: s) with ([c] ++ s).
  rewrite !replace_app, IH. unfold escape at 2. rewrite flat_map_app.
  f_equal. simpl.
  destruct (Ascii.eqb_spec c BS) as [->|Hb]; [done|].
  simpl. by destruct (Ascii.eqb_spec c DQ).
Qed.

(** C3 (as amended).  [to_yaml_value] renders booleans as true/false,
    absent as null, an integer-valued float without a fractional part, any
    other number in its default decimal form, an empty sequence as [[]], a
    non-empty sequence as a bracketed list of quoted elements separated by
    a comma and a space, and every other value as a double-quoted string in
    which backslash and double quote are escaped with a backslash. *)
Theorem to_yaml_value_refines_serialize_scalar :
  (forall v, to_yaml_value v = serialize_scalar_numbers v)
  /\ to_yaml_value (Scalar (VFloat (S754_finite false 6350779162034176 (-44)) "361.0"))
     = ("361" : str)
  /\ to_yaml_value (Scalar VNone) = ("null" : str)
  /\ to_yaml_value (Seq [VStr "a"; VStr "b"])
     = "[" ++ [DQ] ++ "a" ++ [DQ] ++ ", " ++ [DQ] ++ "b" ++ [DQ] ++ "]"
  /\ to_yaml_value (Seq []) = ("[]" : str)
  /\ to_yaml_value (Scalar (VStr ("He said " ++ [DQ] ++ "hi" ++ [DQ])))
     = [DQ] ++ "He said " ++ [BS; DQ] ++ "hi" ++ [BS; DQ] ++ [DQ].
Proof.
  split; [|by vm_compute].
  intros [x|l].
  - destruct x as [|[]| | | | |]; simpl; try done; apply yaml_quote_quoted.
  - destruct l as [|x l]; [done|].
    unfold to_yaml_value, serialize_scalar_numbers, quoted_list.
    erewrite map_ext; [reflexivity|]. intros y. apply yaml_quote_quoted.
Qed.

(** C3 (as stated) fails on an integer: it is not one of the listed forms,
    and it is rendered as a bare numeral, not as a quoted string. *)
Lemma serialize_scalar_spec_quotes_int :
  serialize_scalar_spec (Scalar (VInt 5)) = [DQ] ++ "5" ++ [DQ]
  /\ to_yaml_value (Scalar (VInt 5)) = ("5" : str).
Proof. by vm_compute. Qed.

(** ** The header map *)

Lemma index_from_lookup i hs m col :
  index_from i hs m !! col =
    match find_last col hs with
    | Some j => if nonempty col then Some (i + j) else m !! col
    | None => m !! col
    end.
Proof.
  revert i m. induction hs as [|h hs IH]; intros i m; simpl; [done|].
  rewrite IH. destruct (find_last col hs) as [j|].
  - destruct (nonempty col) eqn:Ec; [f_equal; lia|].
    destruct (nonempty h) eqn:Eh; [|done].
    rewrite lookup_insert_ne; [done|]. intros ->. congruence.
  - case_bool_decide as Eq.
    + subst h. destruct (nonempty col); [|done].
      rewrite lookup_insert_eq. f_equal. lia.
    + destruct (nonempty h); [|done]. by rewrite lookup_insert_ne.
Qed.

Lemma find_last_Some col hs j :
  find_last col hs = Some j ->
  hs !! j = Some col /\ forall j', j < j' -> hs !! j' <> Some col.
Proof.
  revert j. induction hs as [|h hs IH]; intros j; simpl; [done|].
  destruct (find_last col hs) as [k|] eqn:E.
  - intros [= <-]. destruct (IH _ eq_refl) as [H1 H2]. split; [done|].
    intros [|j'] Hj; [lia|]. simpl. apply H2. lia.
  - case_bool_decide as Eq; [|done]. intros [= <-]. split; [by subst|].
    intros [|j'] Hj; [lia|]. simpl. intros Hl.
    assert (exists k, find_last col hs = Some k) as [k Hk]; [|congruence].
    clear -Hl. revert j' Hl. induction hs as [|h' hs IH]; intros j' Hl; [done|].
    simpl. destruct j' as [|j']; simpl in Hl.
    + injection Hl as ->. destruct (find_last col hs); [by eexists|].
      rewrite bool_decide_eq_true_2 by done. by eexists.
    + destruct (IH _ Hl) as [k ->]. by eexists.
Qed.

Lemma find_last_None col hs : find_last col hs = None <-> col ∉ hs.
Proof.
  induction hs as [|h hs IH]; simpl.
  - split; [intros _; apply not_elem_of_nil|done].
  - rewrite not_elem_of_cons. destruct (find_last col hs) as [k|].
    + split; [done|]. intros [_ H]. by apply IH in H.
    + case_bool_decide as Eq; split; try done.
      * intros [H _]. by subst.
      * intros _. split; [congruence|by apply IH].
Qed.

Lemma header_index_lookup hs col :
  header_index hs !! col =
    if nonempty col then find_last col hs else None.
Proof.
  unfold header_index. rewrite index_from_lookup, lookup_empty.
  destruct (find_last col hs); by destruct (nonempty col).
Qed.

Lemma nonempty_true s : nonempty s = true <-> s <> [].
Proof.
  unfold nonempty. case_bool_decide; split; simpl; congruence.
Qed.

Lemma cell_Ok hi row col :
  exists v, cell hi row col = Ok v.
Proof.
  unfold cell, getitem. destruct (hi !! col) as [i|]; [|by eexists].
  destruct (Nat.leb_spec (length row) i); [by eexists|].
  destruct (lookup_lt_is_Some_2 row i) as [v ->]; [lia|by eexists].
Qed.

(** C10.  The cell lookup never raises.  It returns [None] when the column
    name is empty or is not one of the header strings of row 1, and
    otherwise takes the index of the last header with that name: it returns
    [None] when the row is too short to have a cell at that index, and the
    cell at that index when it has one. *)
Theorem cell_total (row0 row : list scalar) (col_name : str) :
  let hs := headers_of row0 in
  let hi := header_index hs in
  (exists v, cell hi row col_name = Ok v)
  /\ ((col_name = [] \/ col_name ∉ hs) -> cell hi row col_name = Ok VNone)
  /\ (col_name <> [] -> col_name ∈ hs -> is_Some (hi !! col_name))
  /\ (forall i, hi !! col_name = Some i ->
        hs !! i = Some col_name
        /\ (forall j, i < j -> hs !! j <> Some col_name)
        /\ (length row <= i -> cell hi row col_name = Ok VNone)
        /\ (forall v, row !! i = Some v -> cell hi row col_name = Ok v)).
Proof.
  intros hs hi. split; [apply cell_Ok|]. split; [|split].
  - intros H. unfold cell, hi. rewrite header_index_lookup.
    destruct H as [->|H]; [done|].
    apply find_last_None in H as ->. by destruct (nonempty col_name).
  - intros Hne Hin. unfold hi. rewrite header_index_lookup.
    apply nonempty_true in Hne as ->.
    destruct (find_last col_name hs) eqn:E; [done|].
    by apply find_last_None in E.
  - intros i Hi. pose proof Hi as Hi'. unfold hi in Hi'.
    rewrite header_index_lookup in Hi'.
    destruct (nonempty col_name); [|done].
    apply find_last_Some in Hi' as [H1 H2].
    split; [done|]. split; [done|]. unfold cell. rewrite Hi. split.
    + intros Hlen. by apply Nat.leb_le in Hlen as ->.
    + intros v Hv. pose proof (lookup_lt_Some _ _ _ Hv).
      destruct (Nat.leb_spec (length row) i); [lia|].
      unfold getitem. by rewrite Hv.
Qed.

(** ** The loop body *)

Lemma cell_value_eq hi row col : cell hi row col = Ok (cell_value hi row col).
Proof.
  unfold cell, cell_value, getitem. destruct (hi !! col) as [i|]; [|done].
  destruct (Nat.leb_spec (length row) i) as [H|H].
  - by rewrite (lookup_ge_None_2 row i) by lia.
  - destruct (lookup_lt_is_Some_2 row i) as [v ->]; [lia|done].
Qed.

Lemma bind_Ok {A B} (m : result A) (k : A -> result B) b :
  m ≫= k = Ok b -> exists x, m = Ok x /\ k x = Ok b.
Proof. destruct m as [x|e]; [|done]. intros H. by exists x. Qed.

Lemma bind_Raise {A B} (m : result A) (k : A -> result B) e :
  m = Raise e -> m ≫= k = Raise e.
Proof. by intros ->. Qed.

Lemma build_document_eq a hi today r raw_id raw_title :
  build_document a hi today r raw_id raw_title =
    wid ← slug_id raw_id 5;
    parsed ← parse_date (cell_value hi r (date_col a));
    catalogue_date ← parse_date (cell_value hi r "catalogue_date");
    fm ← with_permalink a wid
           (row_front_matter a hi today r wid (strip (py_str raw_title))
              parsed catalogue_date);
    Ok (Document wid fm (row_body a hi r wid)
          (build_front_matter fm ++ rstrip (join [NL] (row_body a hi r wid)) ++ [NL])).
Proof.
  unfold build_document. rewrite !cell_value_eq. reflexivity.
Qed.

(** ** The metadata block *)

Lemma front_matter_loop_eq fields lines :
  front_matter_loop fields lines
  = lines ++ map render_line (List.filter not_None fields).
Proof.
  revert lines. induction fields as [|[k v] fields IH]; intros lines; simpl.
  - by rewrite app_nil_r.
  - unfold not_None at 1. simpl. destruct (value_is_None v); simpl; [apply IH|].
    by rewrite IH, <- app_assoc.
Qed.

Lemma front_matter_lines_eq fields :
  front_matter_lines fields
  = ["---" : str] ++ map render_line (List.filter not_None fields) ++ ["---" : str].
Proof. unfold front_matter_lines. by rewrite front_matter_loop_eq, <- app_assoc. Qed.

Lemma dict_get_Some d k v : dict_get d k = Some v -> (k, v) ∈ d.
Proof.
  induction d as [|[k' v'] d IH]; simpl; [done|].
  case_bool_decide as E.
  - intros [= <-]. subst. apply list_elem_of_here.
  - intros H. apply list_elem_of_further. by apply IH.
Qed.

Lemma dict_get_None d k : dict_get d k = None <-> k ∉ map fst d.
Proof.
  induction d as [|[k' v'] d IH]; simpl.
  - split; [intros _; apply not_elem_of_nil|done].
  - rewrite not_elem_of_cons. case_bool_decide as E.
    + split; [done|]. intros [H _]. by subst.
    + rewrite IH. split; [intros H; split; [congruence|done]|by intros [_ H]].
Qed.

Lemma emitted_keys_get d k :
  k ∈ emitted_keys d <->
  exists v, (k, v) ∈ d /\ value_is_None v = false.
Proof.
  unfold emitted_keys. rewrite list_elem_of_fmap. split.
  - intros [[k' v] [-> H]]. apply list_elem_of_In, filter_In in H as [H1 H2].
    exists v. split; [by apply list_elem_of_In|].
    unfold not_None in H2. simpl in *. by destruct (value_is_None v).
  - intros (v & H1 & H2). exists (k, v). split; [done|].
    apply list_elem_of_In, filter_In. split; [by apply list_elem_of_In|].
    unfold not_None. simpl. by rewrite H2.
Qed.

(** A dict whose keys are distinct holds one value per key. *)
Lemma dict_get_unique d k v :
  NoDup (map fst d) -> (k, v) ∈ d -> dict_get d k = Some v.
Proof.
  induction d as [|[k' v'] d IH]; simpl; [by intros _ ?%elem_of_nil|].
  intros [Hk Hd]%NoDup_cons [H|H]%elem_of_cons.
  - injection H as -> ->. by rewrite bool_decide_eq_true_2.
  - rewrite bool_decide_eq_false_2; [by apply IH|].
    intros ->. apply Hk. apply list_elem_of_fmap. by exists (k, v).
Qed.

Lemma dict_set_fresh d k v : k ∉ map fst d -> dict_set d k v = d ++ [(k, v)].
Proof.
  induction d as [|[k' v'] d IH]; simpl; [done|].
  intros [H1 H2]%not_elem_of_cons.
  rewrite bool_decide_eq_false_2 by congruence. by rewrite IH.
Qed.

Lemma row_front_matter_keys a hi today r wid title parsed cat :
  map fst (row_front_matter a hi today r wid title parsed cat) = front_matter_keys.
Proof. reflexivity. Qed.

Lemma with_permalink_Ok a wid fm fm' :
  map fst fm = front_matter_keys ->
  with_permalink a wid fm = Ok fm' ->
  fm' = fm \/ exists link, fm' = fm ++ [("permalink" : str, Scalar (VStr link))].
Proof.
  intros Hk. unfold with_permalink. destruct (permalink a) as [format|].
  - intros (link & _ & [= <-])%bind_Ok. right. exists link.
    apply dict_set_fresh. rewrite Hk. by compute_done.
  - intros [= <-]. by left.
Qed.

Lemma elem_of_row_front_matter a hi today r wid title parsed cat k v :
  (k, v) ∈ row_front_matter a hi today r wid title parsed cat ->
  dict_get (row_front_matter a hi today r wid title parsed cat) k = Some v.
Proof.
  apply dict_get_unique. rewrite row_front_matter_keys. by compute_done.
Qed.

Lemma stripped_or_None_plain x : plain_value (stripped_or_None x).
Proof.
  unfold stripped_or_None, plain_value. destruct (truthy x); [right; left|left]; eauto.
Qed.

Lemma row_front_matter_plain a hi today r wid title parsed cat k v :
  (k, v) ∈ row_front_matter a hi today r wid title parsed cat -> plain_value v.
Proof.
  unfold row_front_matter. rewrite !elem_of_cons, elem_of_nil.
  intros H.
  repeat (destruct H as [H|H]; [injection H as -> ->|]); try done;
    try apply stripped_or_None_plain;
    try (right; left; by eexists).
  - destruct cat; [right; left; by eexists|by left].
  - cbv zeta. destruct (parse_list _ _); [by left|right; right; by eexists _, _].
Qed.

Lemma plain_value_not_null v :
  plain_value v -> value_is_None v = false -> to_yaml_value v <> ("null" : str).
Proof.
  intros [->|[[s ->]|(x & l & ->)]]; [done|done|].
  intros _. by destruct l.
Qed.

Lemma build_document_Ok a hi today r raw_id raw_title d :
  build_document a hi today r raw_id raw_title = Ok d ->
  exists wid parsed cat fm,
    slug_id raw_id 5 = Ok wid
    /\ parse_date (cell_value hi r (date_col a)) = Ok parsed
    /\ parse_date (cell_value hi r "catalogue_date") = Ok cat
    /\ with_permalink a wid
         (row_front_matter a hi today r wid (strip (py_str raw_title)) parsed cat)
       = Ok fm
    /\ d = Document wid fm (row_body a hi r wid)
             (build_front_matter fm ++ rstrip (join [NL] (row_body a hi r wid)) ++ [NL]).
Proof.
  rewrite build_document_eq.
  intros (wid & Hw & (parsed & Hp & (cat & Hc & (fm & Hf & [= <-])%bind_Ok)%bind_Ok)%bind_Ok)%bind_Ok.
  by exists wid, parsed, cat, fm.
Qed.

(** The keys of a row's metadata block, read off the [fm] literal. *)
Lemma emitted_row_key a hi today r wid title parsed cat fm k :
  with_permalink a wid (row_front_matter a hi today r wid title parsed cat) = Ok fm ->
  k <> ("permalink" : str) ->
  k ∈ emitted_keys fm <->
  exists x, dict_get (row_front_matter a hi today r wid title parsed cat) k = Some x
            /\ value_is_None x = false.
Proof.
  intros Hf Hk. rewrite emitted_keys_get.
  apply with_permalink_Ok in Hf as [->|[link ->]]; [..|apply row_front_matter_keys].
  - split; intros (x & H1 & H2); exists x; split; try done.
    + by apply elem_of_row_front_matter.
    + by apply dict_get_Some.
  - split; intros (x & H1 & H2); exists x; split; try done.
    + apply elem_of_app in H1 as [H1|H1]; [by apply elem_of_row_front_matter|].
      apply list_elem_of_singleton in H1. congruence.
    + apply elem_of_app. left. by apply dict_get_Some.
Qed.

Lemma stripped_or_None_is_None x :
  value_is_None (stripped_or_None x) = negb (truthy x).
Proof. unfold stripped_or_None. by destruct (truthy x). Qed.

(** C4 (as amended).  In the metadata block of every document each key whose
    value is absent is left out, [catalogue_date] and [tags] included: the
    block has one line per key with a value, no line carries the null
    marker, [catalogue_date] appears exactly when its cell parses to a date,
    [tags] exactly when the tag list is not empty, each of series, medium,
    dimensions, primary and thumb exactly when its cell is filled, and there
    is no attachments key at all. *)
Theorem front_matter_omits_absent a hi today r raw_id raw_title d :
  build_document a hi today r raw_id raw_title = Ok d ->
  front_matter_lines (doc_fm d)
  = ["---" : str] ++ map render_line (List.filter not_None (doc_fm d)) ++ ["---" : str]
  /\ (forall k x, (k, x) ∈ doc_fm d -> value_is_None x = false ->
        to_yaml_value x <> ("null" : str))
  /\ (("catalogue_date" : str) ∈ emitted_keys (doc_fm d) <->
      exists s, parse_date (cell_value hi r "catalogue_date") = Ok (Some s))
  /\ (("tags" : str) ∈ emitted_keys (doc_fm d) <->
      parse_list (cell_value hi r (tags_col a)) "," <> [])
  /\ (forall k, k ∈ descriptive_keys ->
        (k ∈ emitted_keys (doc_fm d) <-> truthy (cell_value hi r k) = true))
  /\ ("attachments" : str) ∉ map fst (doc_fm d).
Proof.
  intros (wid & parsed & cat & fm & Hw & Hp & Hc & Hf & ->)%build_document_Ok.
  simpl doc_fm. split; [apply front_matter_lines_eq|].
  split; [|split; [|split; [|split]]].
  - intros k x Hin. apply plain_value_not_null.
    apply with_permalink_Ok in Hf as [->|[link ->]]; [..|apply row_front_matter_keys].
    + by eapply row_front_matter_plain.
    + apply elem_of_app in Hin as [Hin|Hin]; [by eapply row_front_matter_plain|].
      apply list_elem_of_singleton in Hin as [= -> ->]. right; left. by eexists.
  - rewrite (emitted_row_key _ _ _ _ _ _ _ _ _ _ Hf) by done.
    change (dict_get _ _) with
      (Some (match cat with Some s => Scalar (VStr s) | None => Scalar VNone end)).
    rewrite Hc. split.
    + intros (x & [= <-] & Hx). destruct cat; [by eexists|done].
    + intros [s [= ->]]. by eexists.
  - rewrite (emitted_row_key _ _ _ _ _ _ _ _ _ _ Hf) by done.
    change (dict_get _ _) with
      (Some (let tags := parse_list (cell_value hi r (tags_col a)) "," in
             match tags with [] => Scalar VNone | _ => Seq (map VStr tags) end)).
    cbv zeta. split.
    + intros (x & [= <-] & Hx). by destruct (parse_list _ _).
    + intros Hne. eexists. split; [done|]. by destruct (parse_list _ _).
  - intros k Hk. unfold descriptive_keys in Hk.
    rewrite !elem_of_cons, elem_of_nil in Hk.
    assert (k <> ("permalink" : str)) as Hne by (by intuition subst).
    rewrite (emitted_row_key _ _ _ _ _ _ _ _ _ _ Hf) by done.
    assert (dict_get (row_front_matter a hi today r wid (strip (py_str raw_title))
                        parsed cat) k
            = Some (stripped_or_None (cell_value hi r k))) as ->
      by (by intuition subst).
    split.
    + intros (x & [= <-] & Hx). rewrite stripped_or_None_is_None in Hx.
      by destruct (truthy _).
    + intros Ht. eexists. split; [done|]. by rewrite stripped_or_None_is_None, Ht.
  - apply with_permalink_Ok in Hf as [->|[link ->]]; [..|apply row_front_matter_keys].
    + rewrite row_front_matter_keys. by compute_done.
    + rewrite map_app, row_front_matter_keys. by compute_done.
Qed.

(** ** The file content *)

Lemma join_cons_head sep c t ls : exists rest, join sep ((c :: t) :: ls) = c :: rest.
Proof. destruct ls; simpl; by eexists. Qed.

Lemma join_snoc sep l x :
  join sep (l ++ [x]) = match l with [] => x | _ => join sep l ++ sep ++ x end.
Proof.
  induction l as [|y l IH]; [done|].
  simpl app. destruct l as [|z l]; [done|].
  change (join sep (y :: (z :: l) ++ [x])) with (y ++ sep ++ join sep ((z :: l) ++ [x])).
  rewrite IH. change (join sep (y :: z :: l)) with (y ++ sep ++ join sep (z :: l)).
  by rewrite <- !app_assoc.
Qed.

Lemma rstrip_head_nonspace c s : isspace c = false -> rstrip (c :: s) <> [].
Proof.
  intros Hc. unfold rstrip. simpl rev.
  destruct (lstrip_keeps_last (rev s) c Hc) as [t ->].
  rewrite rev_app_distr. done.
Qed.

Lemma trailing_newlines_one p c :
  isspace c = false -> trailing_newlines (p ++ [c] ++ [NL]) = 1.
Proof.
  intros Hc. unfold trailing_newlines. rewrite !rev_app_distr. simpl.
  destruct (Ascii.eqb_spec c NL) as [->|]; [by rewrite isspace_NL in Hc|done].
Qed.

Lemma build_front_matter_end fields :
  exists p, build_front_matter fields = p ++ "-" ++ [NL].
Proof.
  unfold build_front_matter, front_matter_lines. rewrite join_snoc.
  destruct (front_matter_loop _ _) as [|l ls].
  - by exists "--".
  - exists (join [NL] (l :: ls) ++ [NL] ++ "--"). by rewrite <- !app_assoc.
Qed.

Lemma row_body_head a hi r wid :
  row_body a hi r wid = []
  \/ exists c t ls, row_body a hi r wid = (c :: t) :: ls /\ isspace c = false.
Proof.
  unfold row_body, body_notes.
  destruct (truthy _ && nonempty _) eqn:E.
  - right. apply andb_true_iff in E as [_ E]. apply nonempty_true in E.
    destruct (strip_head (py_str (cell_value hi r (notes_col a)))) as [H|(c & t & H & Hc)];
      [done|].
    rewrite H. by eexists c, t, _.
  - simpl. unfold body_supplements. destruct (map _ _); [by left|].
    right. by eexists "#"%char, _, _.
Qed.

(** C8 (as amended).  The content of a document is its metadata block, the
    body with trailing whitespace trimmed, and a newline.  When the body is
    not empty the content ends with exactly one newline; when the body is
    empty the content is the metadata block followed by an empty line, and
    ends with two. *)
Theorem content_trailing_newline a hi today r raw_id raw_title d :
  build_document a hi today r raw_id raw_title = Ok d ->
  let body := rstrip (join [NL] (doc_body d)) in
  doc_content d = build_front_matter (doc_fm d) ++ body ++ [NL]
  /\ (body = [] \/ exists p c, body = p ++ [c] /\ isspace c = false)
  /\ (doc_body d <> [] -> trailing_newlines (doc_content d) = 1)
  /\ (doc_body d = [] ->
      doc_content d = build_front_matter (doc_fm d) ++ [NL]
      /\ trailing_newlines (doc_content d) = 2).
Proof.
  intros (wid & parsed & cat & fm & Hw & Hp & Hc & Hf & ->)%build_document_Ok.
  simpl. split; [done|]. split; [apply rstrip_last|]. split.
  - intros Hne.
    destruct (row_body_head a hi r wid) as [H|(c & t & ls & H & Hc')]; [done|].
    rewrite H. destruct (join_cons_head [NL] c t ls) as [rest ->].
    pose proof (rstrip_head_nonspace c rest Hc') as Hr.
    destruct (rstrip_last (c :: rest)) as [E|(p & c' & E & Hc'')]; [done|].
    rewrite E.
    replace (build_front_matter fm ++ (p ++ [c']) ++ [NL])
      with ((build_front_matter fm ++ p) ++ [c'] ++ [NL])
      by (by rewrite <- !app_assoc).
    by apply trailing_newlines_one.
  - intros ->. split; [done|]. simpl.
    destruct (build_front_matter_end fm) as [p ->].
    unfold trailing_newlines. by rewrite !rev_app_distr.
Qed.

(** ** The loop *)

Lemma process_row_eq a hi today r st :
  process_row a hi today r st =
    let raw_id := cell_value hi r (id_col a) in
    let raw_title := cell_value hi r (title_col a) in
    if missing_required raw_id raw_title then Ok (count_skipped st)
    else d ← build_document a hi today r raw_id raw_title; write_policy a d st.
Proof. unfold process_row. by rewrite !cell_value_eq. Qed.

Lemma process_rows_app a hi today pre rest st :
  process_rows a hi today (pre ++ rest) st =
    match process_rows a hi today pre st with
    | (st1, None) => process_rows a hi today rest st1
    | (st1, Some e) => (st1, Some e)
    end.
Proof.
  revert st. induction pre as [|r pre IH]; intros st; simpl; [done|].
  destruct (process_row a hi today r st); [apply IH|done].
Qed.

Lemma missing_required_true raw_id raw_title :
  missing_required raw_id raw_title = true <->
  raw_id = VNone \/ raw_title = VNone \/ strip (py_str raw_title) = [].
Proof.
  unfold missing_required. rewrite !orb_true_iff, bool_decide_eq_true.
  split.
  - intros [[H|H]|H]; [left|right; left|right; right]; try done.
    + by destruct raw_id.
    + by destruct raw_title.
  - intros [->|[->|H]]; [by left; left|by left; right|by right].
Qed.

Lemma cell_Ok_value hi r col v : cell hi r col = Ok v -> cell_value hi r col = v.
Proof. rewrite cell_value_eq. by intros [= ->]. Qed.

Lemma main_loop a today row0 data f f1 :
  mkdir_parents (output_dir a) f = Ok f1 ->
  main a today (row0 :: data) f =
    match process_rows a (header_index (headers_of row0)) today data (initial_state f1) with
    | (st, None) =>
        (State (fs st) (out st ++ [Done (write a) (written st) (skipped st)])
           (written st) (skipped st), None)
    | (st, Some e) => (st, Some e)
    end.
Proof. intros H. unfold main. by rewrite H. Qed.

(** C7.  A row whose id cell is absent, or whose title cell is absent or
    trims to empty, is skipped: nothing is raised, the skipped counter goes
    up by one, nothing else changes, and the loop goes on with the rows that
    follow, also in the middle of a sheet.  A row with an id and a non-blank
    title whose id leaves no digit raises [InvalidIdentifier]; the exception
    leaves the loop and [main], and the rows after it are not processed. *)
Theorem missing_fields_skip_invalid_id_aborts a today row0 r raw_id raw_title :
  let hi := header_index (headers_of row0) in
  cell hi r (id_col a) = Ok raw_id ->
  cell hi r (title_col a) = Ok raw_title ->
  ((raw_id = VNone \/ raw_title = VNone \/ strip (py_str raw_title) = []) ->
   (forall rows st,
      process_row a hi today r st
      = Ok (State (fs st) (out st) (written st) (S (skipped st)))
      /\ process_rows a hi today (r :: rows) st
         = process_rows a hi today rows
             (State (fs st) (out st) (written st) (S (skipped st))))
   /\ (forall before after st st1,
         process_rows a hi today before st = (st1, None) ->
         process_rows a hi today (before ++ r :: after) st
         = process_rows a hi today after
             (State (fs st1) (out st1) (written st1) (S (skipped st1))))
   /\ (forall before after f f1 st1 st2,
         mkdir_parents (output_dir a) f = Ok f1 ->
         process_rows a hi today before (initial_state f1) = (st1, None) ->
         process_rows a hi today after
           (State (fs st1) (out st1) (written st1) (S (skipped st1))) = (st2, None) ->
         main a today (row0 :: before ++ r :: after) f
         = (State (fs st2) (out st2 ++ [Done (write a) (written st2) (skipped st2)])
              (written st2) (skipped st2), None)))
  /\ (raw_id <> VNone -> raw_title <> VNone -> strip (py_str raw_title) <> [] ->
      List.filter isdigit (remove_suffix ".0" (strip (py_str raw_id))) = [] ->
      failure_of (ValueError_invalid_id raw_id) = InvalidIdentifier
      /\ (forall rows st,
            process_rows a hi today (r :: rows) st
            = (st, Some (ValueError_invalid_id raw_id)))
      /\ (forall before after f f1 st1,
            mkdir_parents (output_dir a) f = Ok f1 ->
            process_rows a hi today before (initial_state f1) = (st1, None) ->
            main a today (row0 :: before ++ r :: after) f
            = (st1, Some (ValueError_invalid_id raw_id)))).
Proof.
  intros hi Hid Htitle.
  apply cell_Ok_value in Hid, Htitle. split.
  - intros Hm%missing_required_true.
    assert (forall st, process_row a hi today r st
                       = Ok (State (fs st) (out st) (written st) (S (skipped st))))
      as Hrow.
    { intros st. rewrite process_row_eq. cbv zeta. by rewrite Hid, Htitle, Hm. }
    assert (forall before after st st1,
              process_rows a hi today before st = (st1, None) ->
              process_rows a hi today (before ++ r :: after) st
              = process_rows a hi today after
                  (State (fs st1) (out st1) (written st1) (S (skipped st1)))) as Hmid.
    { intros before after st st1 Hbefore. rewrite process_rows_app, Hbefore.
      simpl. by rewrite Hrow. }
    split; [|split; [exact Hmid|]].
    + intros rows st. split; [done|]. simpl. by rewrite Hrow.
    + intros before after f f1 st1 st2 Hmk Hbefore Hafter.
      rewrite (main_loop _ _ _ _ _ _ Hmk). fold hi.
      by rewrite (Hmid _ _ _ _ Hbefore), Hafter.
  - intros H1 H2 H3 Hd. split; [done|].
    assert (forall st, process_row a hi today r st = Raise (ValueError_invalid_id raw_id))
      as Hrow.
    { intros st. rewrite process_row_eq. cbv zeta. rewrite Hid, Htitle.
      destruct (missing_required raw_id raw_title) eqn:Hm.
      - apply missing_required_true in Hm. by intuition.
      - rewrite build_document_eq, slug_id_digits, Hd; [done|by destruct raw_id]. }
    split.
    + intros rows st. simpl. by rewrite Hrow.
    + intros before after f f1 st1 Hmk Hbefore. unfold main. rewrite Hmk.
      fold hi. rewrite process_rows_app.
      unfold initial_state in Hbefore. rewrite Hbefore. simpl. by rewrite Hrow.
Qed.

(** ** The write policy *)

Lemma extends_refl a f : extends a f f.
Proof. split; [done|]. intros p. by left. Qed.

Lemma extends_trans a f1 f2 f3 : extends a f1 f2 -> extends a f2 f3 -> extends a f1 f3.
Proof.
  intros [D1 H1] [D2 H2]. split; [congruence|]. intros p.
  destruct (H2 p) as [E2|(N2 & I2 & W2)]; destruct (H1 p) as [E1|(N1 & I1 & W1)].
  - left. congruence.
  - right. done.
  - right. rewrite <- E1, <- D1. done.
  - right. done.
Qed.

Lemma extends_path_exists a f f' p :
  extends a f f' -> path_exists p f = true -> path_exists p f' = true.
Proof.
  intros [D H]. unfold path_exists. rewrite !orb_true_iff, !bool_decide_eq_true, D.
  intros [Hd|Hf]; [by left|].
  destruct (H p) as [E|(N & I & _)]; [right; by rewrite E|].
  rewrite N in Hf. by destruct Hf.
Qed.

Lemma extends_files a f f' p c :
  extends a f f' -> files f !! p = Some c -> files f' !! p = Some c.
Proof. intros [_ H] Hp. destruct (H p) as [E|(N & _)]; congruence. Qed.

Lemma with_permalink_indep a wid fm fm' :
  match with_permalink a wid fm with
  | Ok _ => exists fm2, with_permalink a wid fm' = Ok fm2
  | Raise e => with_permalink a wid fm' = Raise e
  end.
Proof.
  unfold with_permalink. destruct (permalink a) as [format|]; [|by eexists].
  destruct (format wid); simpl; [by eexists|done].
Qed.

(** Whether a document is built, with which id, and which exception is
    raised otherwise, does not depend on the date of the run. *)
Lemma build_document_today a hi today today' r raw_id raw_title :
  match build_document a hi today r raw_id raw_title with
  | Ok d => exists d', build_document a hi today' r raw_id raw_title = Ok d'
                       /\ doc_id d' = doc_id d
  | Raise e => build_document a hi today' r raw_id raw_title = Raise e
  end.
Proof.
  rewrite !build_document_eq.
  destruct (slug_id raw_id 5) as [wid|]; cbn [mbind result_bind]; [|done].
  destruct (parse_date (cell_value hi r (date_col a))) as [parsed|];
    cbn [mbind result_bind]; [|done].
  destruct (parse_date (cell_value hi r "catalogue_date")) as [cat|];
    cbn [mbind result_bind]; [|done].
  pose proof (with_permalink_indep a wid
    (row_front_matter a hi today r wid (strip (py_str raw_title)) parsed cat)
    (row_front_matter a hi today' r wid (strip (py_str raw_title)) parsed cat)) as H.
  destruct (with_permalink a wid (row_front_matter a hi today _ _ _ _ _));
    cbn [mbind result_bind].
  - destruct H as [fm2 ->]. cbn [mbind result_bind]. by eexists.
  - by rewrite H.
Qed.

Section NoForce.
  Variable a : args.
  Hypothesis no_force : force a = false.

Lemma write_policy_skip d st :
  path_exists (page_path a (doc_id d)) (fs st) = true ->
  write_policy a d st
  = Ok (State (fs st) (out st ++ [SkipExists (page_path a (doc_id d))])
          (written st) (S (skipped st))).
Proof.
  intros He. unfold write_policy. fold (page_path a (doc_id d)).
  by rewrite He, no_force.
Qed.

(** Without force the write policy never raises; it adds at most the page
    of the document, and the page exists afterwards when writing is on. *)
Lemma write_policy_extends d st :
  exists st', write_policy a d st = Ok st'
    /\ extends a (fs st) (fs st')
    /\ (write a = true -> path_exists (page_path a (doc_id d)) (fs st') = true)
    /\ (write a = false -> fs st' = fs st).
Proof.
  unfold write_policy. fold (page_path a (doc_id d)).
  set (p := page_path a (doc_id d)). rewrite no_force.
  destruct (path_exists p (fs st)) eqn:He; simpl.
  - eexists. split; [done|]. simpl. split; [apply extends_refl|]. done.
  - destruct (write a) eqn:Hw.
    + unfold path_exists in He. apply orb_false_iff in He as [Hd Hfl].
      apply bool_decide_eq_false in Hd. apply bool_decide_eq_false in Hfl.
      unfold write_text. rewrite bool_decide_eq_false_2 by done. simpl.
      eexists. split; [done|]. simpl. split; [|split; [|done]].
      * split; [done|]. intros q. simpl.
        destruct (decide (q = p)) as [->|Hq].
        -- right. split; [|split; [done|by exists (doc_id d)]].
           by apply eq_None_not_Some.
        -- left. by rewrite lookup_insert_ne.
      * intros _. unfold path_exists. simpl. rewrite lookup_insert_eq.
        rewrite (bool_decide_eq_true_2 (is_Some _)) by done. apply orb_true_r.
    + eexists. split; [done|]. simpl. split; [apply extends_refl|]. done.
Qed.

(** One row, without force: what the row does to the files, and what the
    same row does in a later run. *)
Lemma process_row_rerun hi today r st :
  match process_row a hi today r st with
  | Ok st' =>
      extends a (fs st) (fs st')
      /\ (write a = false -> fs st' = fs st)
      /\ (write a = true -> forall today' st2,
            extends a (fs st') (fs st2) ->
            exists st2', process_row a hi today' r st2 = Ok st2'
                         /\ fs st2' = fs st2 /\ written st2' = written st2)
  | Raise e => forall today' st2, process_row a hi today' r st2 = Raise e
  end.
Proof.
  rewrite process_row_eq. cbv zeta.
  destruct (missing_required _ _) eqn:Hm.
  - split; [apply extends_refl|]. split; [done|]. intros _ today' st2 _.
    exists (count_skipped st2). rewrite process_row_eq. cbv zeta. by rewrite Hm.
  - pose proof (build_document_today a hi today) as Hb.
    destruct (build_document a hi today r _ _) as [d|e] eqn:Hd; simpl.
    + destruct (write_policy_extends d st) as (st' & -> & Hext & Hex & Hdry).
      split; [done|]. split; [done|]. intros Hw today' st2 Hext2.
      specialize (Hb today' r (cell_value hi r (id_col a)) (cell_value hi r (title_col a))).
      rewrite Hd in Hb. destruct Hb as (d' & Hd' & Hid).
      rewrite process_row_eq. cbv zeta. rewrite Hm, Hd'. simpl.
      rewrite write_policy_skip; [by eexists|].
      rewrite Hid. eapply extends_path_exists; [done|by apply Hex].
    + intros today' st2. rewrite process_row_eq. cbv zeta. rewrite Hm.
      specialize (Hb today' r (cell_value hi r (id_col a)) (cell_value hi r (title_col a))).
      rewrite Hd in Hb. by rewrite Hb.
Qed.

Lemma process_rows_rerun hi today rows st :
  extends a (fs st) (fs (process_rows a hi today rows st).1)
  /\ (write a = false -> fs (process_rows a hi today rows st).1 = fs st)
  /\ (write a = true -> forall today' st2,
        extends a (fs (process_rows a hi today rows st).1) (fs st2) ->
        fs (process_rows a hi today' rows st2).1 = fs st2
        /\ written (process_rows a hi today' rows st2).1 = written st2).
Proof.
  revert st. induction rows as [|r rows IH]; intros st; simpl.
  - split; [apply extends_refl|]. done.
  - pose proof (process_row_rerun hi today r st) as Hr.
    destruct (process_row a hi today r st) as [st'|e].
    + destruct Hr as (He & Hdry & Hre). destruct (IH st') as (He' & Hdry' & Hre').
      split; [by eapply extends_trans|]. split.
      * intros Hw. by rewrite Hdry', Hdry.
      * intros Hw today' st2 Hext.
        destruct (Hre Hw today' st2) as (st2' & -> & Hfs & Hwr);
          [by eapply extends_trans|].
        rewrite <- Hfs, <- Hwr. apply Hre'; [done|]. by rewrite Hfs.
    + simpl. split; [apply extends_refl|]. split; [done|].
      intros _ today' st2 _. by rewrite Hr.
Qed.

(** The same row in a later run, with what the two runs count and print. *)
Lemma process_row_rerun_report hi today r st :
  write a = true ->
  match process_row a hi today r st with
  | Ok st' =>
      forall today' st2,
        extends a (fs st') (fs st2) ->
        exists st2',
          process_row a hi today' r st2 = Ok st2'
          /\ fs st2' = fs st2 /\ written st2' = written st2
          /\ skipped st2' + (written st + skipped st)
             = skipped st2 + (written st' + skipped st')
          /\ exists E1 E2,
               out st' = out st ++ E1 /\ out st2' = out st2 ++ E2
               /\ forall p, Wrote p ∈ E1 -> SkipExists p ∈ E2
  | Raise e => forall today' st2, process_row a hi today' r st2 = Raise e
  end.
Proof.
  intros Hw. rewrite process_row_eq. cbv zeta.
  destruct (missing_required _ _) eqn:Hm.
  - intros today' st2 _. exists (count_skipped st2).
    rewrite process_row_eq. cbv zeta. rewrite Hm. simpl.
    split; [done|]. split; [done|]. split; [done|]. split; [lia|].
    exists [], []. rewrite !app_nil_r. split; [done|]. split; [done|].
    by intros p ?%elem_of_nil.
  - pose proof (build_document_today a hi today) as Hb.
    destruct (build_document a hi today r _ _) as [d|e] eqn:Hd; cbn [mbind result_bind].
    + assert (forall today' st2,
                path_exists (page_path a (doc_id d)) (fs st2) = true ->
                process_row a hi today' r st2
                = Ok (State (fs st2) (out st2 ++ [SkipExists (page_path a (doc_id d))])
                        (written st2) (S (skipped st2)))) as Hskip.
      { intros today' st2 Hex.
        specialize (Hb today' r (cell_value hi r (id_col a))
                      (cell_value hi r (title_col a))).
        rewrite Hd in Hb. destruct Hb as (d' & Hd' & Hid).
        rewrite process_row_eq. cbv zeta. rewrite Hm, Hd'. cbn [mbind result_bind].
        rewrite write_policy_skip; [by rewrite Hid|by rewrite Hid]. }
      unfold write_policy. fold (page_path a (doc_id d)).
      set (p := page_path a (doc_id d)) in *. rewrite no_force, Hw, andb_true_r.
      destruct (path_exists p (fs st)) eqn:He.
      * intros today' st2 Hext. simpl in Hext. eexists. split.
        { apply Hskip. by eapply extends_path_exists. }
        simpl. split; [done|]. split; [done|]. split; [lia|].
        exists [SkipExists p], [SkipExists p]. split; [done|]. split; [done|].
        by intros q [=]%list_elem_of_singleton.
      * unfold write_text. unfold path_exists in He.
        apply orb_false_iff in He as [Hd1 Hf1]. rewrite Hd1. cbn [mbind result_bind].
        intros today' st2 Hext. simpl in Hext. eexists. split.
        { apply Hskip. eapply extends_path_exists; [exact Hext|].
          unfold path_exists. simpl. rewrite lookup_insert_eq.
          rewrite (bool_decide_eq_true_2 (is_Some _)) by done. apply orb_true_r. }
        simpl. split; [done|]. split; [done|]. split; [lia|].
        exists [Wrote p], [SkipExists p]. split; [done|]. split; [done|].
        intros q [= ->]%list_elem_of_singleton. apply list_elem_of_here.
    + intros today' st2. rewrite process_row_eq. cbv zeta. rewrite Hm.
      specialize (Hb today' r (cell_value hi r (id_col a)) (cell_value hi r (title_col a))).
      rewrite Hd in Hb. by rewrite Hb.
Qed.

Lemma process_rows_rerun_report hi today rows st :
  write a = true ->
  forall today' st2,
    extends a (fs (process_rows a hi today rows st).1) (fs st2) ->
    (process_rows a hi today' rows st2).2 = (process_rows a hi today rows st).2
    /\ skipped (process_rows a hi today' rows st2).1 + (written st + skipped st)
       = skipped st2 + (written (process_rows a hi today rows st).1
                        + skipped (process_rows a hi today rows st).1)
    /\ exists E1 E2,
         out (process_rows a hi today rows st).1 = out st ++ E1
         /\ out (process_rows a hi today' rows st2).1 = out st2 ++ E2
         /\ forall p, Wrote p ∈ E1 -> SkipExists p ∈ E2.
Proof.
  intros Hw. revert st. induction rows as [|r rows IH]; intros st today' st2; simpl.
  - intros _. split; [done|]. split; [lia|]. exists [], [].
    rewrite !app_nil_r. split; [done|]. split; [done|]. by intros p ?%elem_of_nil.
  - pose proof (process_row_rerun_report hi today r st Hw) as Hr.
    destruct (process_row a hi today r st) as [st'|e].
    + intros Hext.
      destruct (process_rows_rerun hi today rows st') as (Hext' & _).
      destruct (Hr today' st2) as (st2' & -> & Hfs & Hwr & Hsk & E1 & E2 & Ho1 & Ho2 & HE);
        [by eapply extends_trans|].
      destruct (IH st' today' st2') as (Hex & Hsk' & E1' & E2' & Ho1' & Ho2' & HE');
        [by rewrite Hfs|].
      split; [done|]. split; [lia|].
      exists (E1 ++ E1'), (E2 ++ E2'). rewrite Ho1', Ho2', Ho1, Ho2, <- !app_assoc.
      split; [done|]. split; [done|].
      intros p [H|H]%elem_of_app; apply elem_of_app; [left; by apply HE|right; by apply HE'].
    + intros _. rewrite Hr. simpl. split; [done|]. split; [lia|]. exists [], [].
      rewrite !app_nil_r. split; [done|]. split; [done|]. by intros p ?%elem_of_nil.
Qed.

End NoForce.

(** ** The run *)

Lemma prefixes_length p q : q ∈ prefixes p -> length q <= length p.
Proof.
  revert q. induction p as [|c p IH]; intros q; simpl; [by intros ?%elem_of_nil|].
  intros [->|H]%elem_of_cons; [simpl; lia|].
  apply list_elem_of_fmap in H as (q' & -> & H). apply IH in H. simpl. lia.
Qed.

Lemma prefix_not_page a wid : page_path a wid ∉ prefixes (output_dir a).
Proof.
  intros H%prefixes_length. unfold page_path in H. rewrite length_app in H.
  simpl in H. lia.
Qed.

Lemma mkdir_parents_Ok p f f1 :
  mkdir_parents p f = Ok f1 <->
  (forall q, q ∈ prefixes p -> files f !! q = None)
  /\ f1 = Fsys (dirs f ∪ list_to_set (prefixes p)) (files f).
Proof.
  unfold mkdir_parents.
  destruct (existsb _ _) eqn:E.
  - split; [done|]. intros [H _]. exfalso.
    apply existsb_exists in E as (q & Hq & Hs).
    apply bool_decide_eq_true in Hs. apply list_elem_of_In in Hq.
    rewrite (H q Hq) in Hs. by destruct Hs.
  - split.
    + intros [= <-]. split; [|done]. intros q Hq.
      apply eq_None_not_Some. intros Hs.
      apply not_true_iff_false in E. apply E, existsb_exists.
      exists q. split; [by apply list_elem_of_In|by apply bool_decide_eq_true].
    + by intros [_ ->].
Qed.

(** A second [mkdir] of the output directory changes nothing. *)
Lemma mkdir_parents_again a f f1 f2 :
  mkdir_parents (output_dir a) f = Ok f1 ->
  extends a f1 f2 ->
  mkdir_parents (output_dir a) f2 = Ok f2.
Proof.
  intros [Hnone ->]%mkdir_parents_Ok [Hd Hf]. simpl in *.
  apply mkdir_parents_Ok. split.
  - intros q Hq. destruct (Hf q) as [->|(_ & _ & wid & ->)]; [by apply Hnone|].
    by apply prefix_not_page in Hq.
  - destruct f2 as [d2 fl2]. simpl in *. subst d2. f_equal.
    by rewrite <- (assoc_L (∪)), (idemp_L (∪)).
Qed.

Lemma main_cases a today rows f :
  (rows = [] /\ main a today rows f = (initial_state f, Some SheetEmpty))
  \/ (exists e, mkdir_parents (output_dir a) f = Raise e
                /\ main a today rows f = (initial_state f, Some e))
  \/ (exists row0 data f1,
        rows = row0 :: data
        /\ mkdir_parents (output_dir a) f = Ok f1
        /\ let res := process_rows a (header_index (headers_of row0)) today data
                        (initial_state f1) in
           fs (main a today rows f).1 = fs res.1
           /\ written (main a today rows f).1 = written res.1
           /\ (main a today rows f).2 = res.2).
Proof.
  destruct rows as [|row0 data]; [by left|]. right. simpl.
  destruct (mkdir_parents (output_dir a) f) as [f1|e] eqn:Hm; [right|left; by eexists].
  exists row0, data, f1. split; [done|]. split; [done|]. unfold initial_state.
  by destruct (process_rows _ _ _ _ _) as [st [e|]].
Qed.

(** C6.  Without force, a row whose page already exists is reported as
    skipped and counted as skipped, and the file system is left as it is; a
    run leaves the content of every file that existed before it unchanged;
    and in a second run over the same sheet, after a run that writes,
    every page the first run wrote is reported as skipped, every row the
    first run counted is counted as skipped, nothing is written and the
    file system stays as the first run left it. *)
Theorem existing_page_is_skipped a :
  force a = false ->
  (forall hi today r st raw_id raw_title d,
     cell hi r (id_col a) = Ok raw_id ->
     cell hi r (title_col a) = Ok raw_title ->
     missing_required raw_id raw_title = false ->
     build_document a hi today r raw_id raw_title = Ok d ->
     path_exists (page_path a (doc_id d)) (fs st) = true ->
     process_row a hi today r st
     = Ok (State (fs st) (out st ++ [SkipExists (page_path a (doc_id d))])
             (written st) (S (skipped st))))
  /\ (forall today rows f p c,
        files f !! p = Some c -> files (fs (main a today rows f).1) !! p = Some c)
  /\ (write a = true -> forall today today' rows f,
        let first := main a today rows f in
        let second := main a today' rows (fs first.1) in
        fs second.1 = fs first.1
        /\ written second.1 = 0
        /\ skipped second.1 = written first.1 + skipped first.1
        /\ second.2 = first.2
        /\ (forall p, Wrote p ∈ out first.1 -> SkipExists p ∈ out second.1)).
Proof.
  intros Hf. split; [|split].
  - intros hi today r st raw_id raw_title d Hid Htitle Hm Hd Hex.
    apply cell_Ok_value in Hid, Htitle.
    rewrite process_row_eq. cbv zeta. rewrite Hid, Htitle, Hm, Hd.
    cbn [mbind result_bind]. by apply write_policy_skip.
  - intros today rows f p c Hp.
    destruct (main_cases a today rows f)
      as [[_ ->]|[(e & _ & ->)|(row0 & data & f1 & _ & Hm & Hfs & _)]]; [done|done|].
    cbv zeta in Hfs. rewrite Hfs.
    destruct (process_rows_rerun a Hf (header_index (headers_of row0)) today data
                (initial_state f1)) as (Hext & _).
    eapply extends_files; [exact Hext|].
    apply mkdir_parents_Ok in Hm as [_ ->]. done.
  - intros Hw today today' rows f. cbv zeta.
    destruct rows as [|row0 data].
    { simpl. split; [done|]. split; [done|]. split; [done|]. split; [done|].
      by intros p ?%elem_of_nil. }
    destruct (mkdir_parents (output_dir a) f) as [f1|e] eqn:Hm.
    2:{ assert (main a today (row0 :: data) f = (State f [] 0 0, Some e)) as ->
          by (unfold main; by rewrite Hm).
        change (fs (State f [] 0 0, Some e).1) with f.
        assert (main a today' (row0 :: data) f = (State f [] 0 0, Some e)) as ->
          by (unfold main; by rewrite Hm).
        simpl. split; [done|]. split; [done|]. split; [done|]. split; [done|].
        by intros p ?%elem_of_nil. }
    set (hi := header_index (headers_of row0)).
    destruct (process_rows_rerun a Hf hi today data (initial_state f1))
      as (Hext & _ & Hre).
    pose proof (process_rows_rerun_report a Hf hi today data (initial_state f1) Hw)
      as Hrep.
    set (R1 := process_rows a hi today data (initial_state f1)) in *.
    assert (fs (main a today (row0 :: data) f).1 = fs R1.1) as HF.
    { rewrite (main_loop _ _ _ _ _ _ Hm). fold hi R1. by destruct R1 as [s1 [e|]]. }
    rewrite HF.
    pose proof (mkdir_parents_again _ _ _ _ Hm Hext) as Hm2.
    rewrite (main_loop _ _ _ _ _ _ Hm2), (main_loop _ _ _ _ _ _ Hm). fold hi R1.
    destruct (Hre Hw today' (initial_state (fs R1.1))) as [H1 H2]; [apply extends_refl|].
    destruct (Hrep today' (initial_state (fs R1.1)))
      as (Hex & Hsk & E1 & E2 & Ho1 & Ho2 & HE); [apply extends_refl|].
    set (R2 := process_rows a hi today' data (initial_state (fs R1.1))) in *.
    simpl in H1, H2, Hsk, Ho1, Ho2.
    destruct R1 as [s1 o1], R2 as [s2 o2]. simpl in *. subst o2.
    destruct o1 as [e|]; simpl.
    + split; [done|]. split; [done|]. split; [lia|]. split; [done|].
      rewrite Ho1, Ho2. exact HE.
    + split; [done|]. split; [done|]. split; [lia|]. split; [done|].
      rewrite Ho1, Ho2. intros p [H|H]%elem_of_app.
      * apply elem_of_app. left. by apply HE.
      * by apply list_elem_of_singleton in H.
Qed.

(** ** Dry runs *)

Lemma write_policy_dry a d st st' :
  write a = false -> write_policy a d st = Ok st' -> fs st' = fs st.
Proof.
  intros Hw. unfold write_policy. rewrite Hw.
  destruct (_ && _); by intros [= <-].
Qed.

Lemma process_rows_dry a hi today rows st :
  write a = false -> fs (process_rows a hi today rows st).1 = fs st.
Proof.
  intros Hw. revert st. induction rows as [|r rows IH]; intros st; simpl; [done|].
  destruct (process_row a hi today r st) as [st'|e] eqn:Hr; [|done].
  rewrite IH. rewrite process_row_eq in Hr. cbv zeta in Hr.
  destruct (missing_required _ _); [by injection Hr as <-|].
  apply bind_Ok in Hr as (d & _ & Hp). by eapply write_policy_dry.
Qed.

(** A dry run leaves every file as it is: the only thing it may add to the
    file system is the output directory. *)
Lemma dry_run_keeps_files a today rows f :
  write a = false ->
  files (fs (main a today rows f).1) = files f
  /\ (dirs (fs (main a today rows f).1) = dirs f
      \/ dirs (fs (main a today rows f).1)
         = dirs f ∪ list_to_set (prefixes (output_dir a))).
Proof.
  intros Hw.
  destruct (main_cases a today rows f)
    as [[_ ->]|[(e & _ & ->)|(row0 & data & f1 & _ & Hm & Hfs & _)]];
    [by split; [|left]..|].
  cbv zeta in Hfs. rewrite Hfs, process_rows_dry by done. simpl.
  apply mkdir_parents_Ok in Hm as [_ ->]. split; [done|by right].
Qed.

(** C5 fails on a dry run whose output directory does not exist yet: the
    directory is created before the loop, whatever the write mode. *)
Theorem dry_run_creates_output_dir :
  write (default_args false false) = false
  /\ path_exists ["works" : str] empty_fs = false
  /\ path_exists ["works" : str]
       (fs (main (default_args false false) "2026-11-04"
              [example_header; example_row] empty_fs).1) = true
  /\ out (main (default_args false false) "2026-11-04"
            [example_header; example_row] empty_fs).1
     = [DryRun ["works" : str; "00361.md" : str] false; Done false 1 0].
Proof. by vm_compute. Qed.

(** ** The example sheet *)

(** The page written for the example row. *)
Example example_page :
  files (fs (main (default_args true false) "2026-11-04"
               [example_header; example_row] empty_fs).1)
    !! ["works" : str; "00361.md" : str]
  = Some (join [NL]
            [ "---" : str;
              "title: " ++ quoted "Untitled";
              "date: " ++ quoted "2023-05-01";
              "layout: " ++ quoted "theme";
              "work_id: " ++ quoted "00361";
              "tags: [" ++ quoted "red" ++ ", " ++ quoted "blue" ++ "]";
              "---" : str;
              "Some notes" : str;
              "" : str;
              "## Supplements" : str;
              "- [a.pdf](/assets/works/00361/files/a.pdf)" : str;
              "- [b.pdf](/assets/works/00361/files/b.pdf)" : str;
              "" : str ]).
Proof. by vm_compute. Qed.

(** C4 (as stated) fails on a row with an id and a title only: the page
    written for it has no [catalogue_date], [tags] or attachments key. *)
Lemma bare_row_page_has_no_structural_keys :
  files (fs (main (default_args true false) "2026-11-04"
               [example_header; bare_row] empty_fs).1)
    !! ["works" : str; "00361.md" : str]
  = Some (join [NL]
            [ "---" : str;
              "title: " ++ quoted "Untitled";
              "date: " ++ quoted "2026-11-04";
              "layout: " ++ quoted "theme";
              "work_id: " ++ quoted "00361";
              "---" : str;
              "" : str;
              "" : str ]).
Proof. by vm_compute. Qed.

(** C8 (as stated) fails on the same row: its body is empty and its page
    ends with two newlines. *)
Lemma bare_row_page_ends_with_two_newlines :
  (d ← build_document (default_args true false) example_index "2026-11-04"
         bare_row (VInt 361) (VStr "Untitled");
   Ok (doc_body d))
  = Ok []
  /\ trailing_newlines
       <$> (files (fs (main (default_args true false) "2026-11-04"
                         [example_header; bare_row] empty_fs).1)
              !! ["works" : str; "00361.md" : str])
     = Some 2.
Proof. by vm_compute. Qed.

(** The amended C4 at the example row. *)
Lemma front_matter_omits_absent_witness :
  exists d,
    build_document (default_args true false) example_index "2026-11-04"
      example_row (VInt 361) (VStr "Untitled") = Ok d
    /\ (("tags" : str) ∈ emitted_keys (doc_fm d) <->
        parse_list (cell_value example_index example_row "tags") "," <> [])
    /\ ("attachments" : str) ∉ map fst (doc_fm d).
Proof.
  destruct (build_document (default_args true false) example_index "2026-11-04"
              example_row (VInt 361) (VStr "Untitled")) as [d|e] eqn:E;
    [|vm_compute in E; discriminate E].
  exists d. split; [reflexivity|].
  destruct (front_matter_omits_absent _ _ _ _ _ _ _ E) as (_ & _ & _ & Ht & _ & Ha).
  split; [exact Ht|exact Ha].
Defined.

(** The amended C8 at the example row. *)
Lemma content_trailing_newline_witness :
  exists d,
    build_document (default_args true false) example_index "2026-11-04"
      example_row (VInt 361) (VStr "Untitled") = Ok d
    /\ (doc_body d <> [] -> trailing_newlines (doc_content d) = 1).
Proof.
  destruct (build_document (default_args true false) example_index "2026-11-04"
              example_row (VInt 361) (VStr "Untitled")) as [d|e] eqn:E;
    [|vm_compute in E; discriminate E].
  exists d. split; [reflexivity|].
  destruct (content_trailing_newline _ _ _ _ _ _ _ E) as (_ & _ & H1 & _).
  exact H1.
Defined.

(** C6 at the example sheet: the second run, a day later, reports the page
    as skipped, counts it and changes nothing. *)
Lemma existing_page_is_skipped_witness :
  fs (main (default_args true false) "2026-11-05" [example_header; example_row]
        (fs (main (default_args true false) "2026-11-04"
               [example_header; example_row] empty_fs).1)).1
  = fs (main (default_args true false) "2026-11-04"
          [example_header; example_row] empty_fs).1
  /\ out (main (default_args true false) "2026-11-05" [example_header; example_row]
        (fs (main (default_args true false) "2026-11-04"
               [example_header; example_row] empty_fs).1)).1
     = [SkipExists ["works" : str; "00361.md" : str]; Done true 0 1]
  /\ SkipExists ["works" : str; "00361.md" : str]
     ∈ out (main (default_args true false) "2026-11-05" [example_header; example_row]
              (fs (main (default_args true false) "2026-11-04"
                     [example_header; example_row] empty_fs).1)).1.
Proof.
  destruct (existing_page_is_skipped (default_args true false) eq_refl) as (_ & _ & H).
  destruct (H eq_refl "2026-11-04" "2026-11-05" [example_header; example_row] empty_fs)
    as (H1 & _ & _ & _ & H5).
  split; [exact H1|]. split; [by vm_compute|].
  apply H5. vm_compute. apply list_elem_of_here.
Defined.

(** C7 at a sheet whose first row has no title and whose second row has an
    id without digits: the first is counted as skipped, the run stops at
    the second, and the row after it is not written. *)
Lemma missing_fields_skip_invalid_id_aborts_witness :
  process_row (default_args true false) example_index "2026-11-04"
    [VInt 7] (initial_state empty_fs)
  = Ok (State empty_fs [] 0 1)
  /\ process_rows (default_args true false) example_index "2026-11-04"
       [[VInt 7]; [VStr "abc"; VStr "Untitled"]; example_row] (initial_state empty_fs)
     = (State empty_fs [] 0 1, Some (ValueError_invalid_id (VStr "abc"))).
Proof.
  destruct (missing_fields_skip_invalid_id_aborts (default_args true false)
              "2026-11-04" example_header [VInt 7] (VInt 7) VNone)
    as [Hskip _]; [by vm_compute|by vm_compute|].
  destruct Hskip as [Hskip _]; [by right; left|].
  destruct (missing_fields_skip_invalid_id_aborts (default_args true false)
              "2026-11-04" example_header [VStr "abc"; VStr "Untitled"]
              (VStr "abc") (VStr "Untitled"))
    as [_ Habort]; [by vm_compute|by vm_compute|].
  destruct Habort as (_ & Habort & _); [done|done|by vm_compute|by vm_compute|].
  destruct (Hskip [[VStr "abc"; VStr "Untitled"]; example_row] (initial_state empty_fs))
    as [H1 H2].
  split; [exact H1|]. etransitivity; [exact H2|]. apply Habort.
Defined.

(** Lists are split, trimmed and cleared of empty pieces, in order. *)
Example parse_list_example :
  parse_list (VStr "a, b ,,c") "," = ["a" : str; "b" : str; "c" : str]
  /\ parse_list VNone ";" = []
  /\ parse_list (VStr "  ") ";" = [].
Proof. by vm_compute. Qed.

(** A numeric id cell is printed with a fractional zero, which is dropped. *)
Example slug_id_float_cell :
  slug_id (VFloat (S754_finite false 6350779162034176 (-44)) "361.0") 5
  = Ok ("00361" : str).
Proof. by vm_compute. Qed.

(** A row without a title is skipped, and the row after it is written. *)
Example untitled_row_is_skipped :
  let res := main (default_args true false) "2026-11-04"
               [example_header; [VInt 7]; example_row] empty_fs in
  out res.1 = [Wrote ["works" : str; "00361.md" : str]; Done true 1 1]
  /\ res.2 = None.
Proof. by vm_compute. Qed.

(** A header that occurs twice is looked up at its last column, and a short
    row has no cell there. *)
Example cell_examples :
  let hi := header_index (headers_of [VStr "id"; VStr " title "; VNone; VStr "id"]) in
  cell hi [VInt 1; VStr "a"; VInt 2; VInt 3] "id" = Ok (VInt 3)
  /\ cell hi [VInt 1; VStr "a"; VInt 2] "id" = Ok VNone
  /\ cell hi [VInt 1; VStr "a"] "title" = Ok (VStr "a")
  /\ cell hi [VInt 1; VStr "a"] "" = Ok VNone
  /\ cell hi [VInt 1; VStr "a"] "notes" = Ok VNone.
Proof. by vm_compute. Qed.

(** * Further properties *)

(** ** Trimmed strings *)

Lemma lstrip_nonspace c s : isspace c = false -> lstrip (c :: s) = c :: s.
Proof. intros H. simpl. by rewrite H. Qed.

Lemma rstrip_nonspace s c : isspace c = false -> rstrip (s ++ [c]) = s ++ [c].
Proof.
  intros H. unfold rstrip. rewrite rev_app_distr. simpl.
  rewrite H. simpl. by rewrite rev_involutive.
Qed.

Lemma strip_fixed s :
  (s = [] \/ exists c t, s = c :: t /\ isspace c = false) ->
  (s = [] \/ exists t c, s = t ++ [c] /\ isspace c = false) ->
  strip s = s.
Proof.
  intros [->|(c & t & Hs & Hc)]; [done|].
  intros [E|(t' & c' & Hs' & Hc')]; [congruence|].
  unfold strip. rewrite Hs', rstrip_nonspace by done.
  rewrite <- Hs', Hs. by apply lstrip_nonspace.
Qed.

Lemma strip_idemp s : strip (strip s) = strip s.
Proof. apply strip_fixed; [apply strip_head|apply strip_last]. Qed.

Lemma lstrip_elem c s : c ∈ lstrip s -> c ∈ s.
Proof.
  induction s as [|x s IH]; simpl; [done|].
  destruct (isspace x); [|done]. intros H. apply list_elem_of_further. by apply IH.
Qed.

Lemma strip_elem c s : c ∈ strip s -> c ∈ s.
Proof.
  unfold strip, rstrip. intros H%lstrip_elem.
  apply list_elem_of_In, in_rev, list_elem_of_In, lstrip_elem in H.
  by apply list_elem_of_In, in_rev, list_elem_of_In in H.
Qed.

(** ** Splitting *)

Lemma split_no_sep sep s p : p ∈ split sep s -> sep ∉ p.
Proof.
  revert p. induction s as [|c s IH]; intros p; simpl.
  - intros ->%list_elem_of_singleton. apply not_elem_of_nil.
  - destruct (Ascii.eqb_spec c sep) as [->|Hc].
    + intros [->|H]%elem_of_cons; [apply not_elem_of_nil|by apply IH].
    + pose proof (split_nonempty sep s) as Hne.
      destruct (split sep s) as [|q qs]; [done|].
      intros [->|H]%elem_of_cons.
      * apply not_elem_of_cons. split; [congruence|].
        apply IH, list_elem_of_here.
      * apply IH. by apply list_elem_of_further.
Qed.

Lemma split_single sep p : sep ∉ p -> split sep p = [p].
Proof.
  induction p as [|c p IH]; simpl; [done|].
  intros [Hc Hp]%not_elem_of_cons.
  destruct (Ascii.eqb_spec c sep) as [->|_]; [done|]. by rewrite IH.
Qed.

Lemma split_app_sep sep p s :
  sep ∉ p -> split sep (p ++ sep :: s) = p :: split sep s.
Proof.
  induction p as [|c p IH]; simpl.
  - intros _. by rewrite Ascii.eqb_refl.
  - intros [Hc Hp]%not_elem_of_cons.
    destruct (Ascii.eqb_spec c sep) as [->|_]; [done|]. by rewrite IH.
Qed.

Lemma split_join sep items :
  items <> [] -> Forall (fun x => sep ∉ x) items ->
  split sep (join [sep] items) = items.
Proof.
  intros Hne H. induction H as [|x items Hx H IH]; [done|].
  destruct items as [|y items].
  - simpl. by apply split_single.
  - change (join [sep] (x :: y :: items)) with (x ++ sep :: join [sep] (y :: items)).
    rewrite split_app_sep by done. by rewrite IH.
Qed.

Lemma split_app sep x s :
  split sep (x ++ sep :: s) = split sep x ++ split sep s.
Proof.
  induction x as [|c x IH]; simpl.
  - by rewrite Ascii.eqb_refl.
  - destruct (Ascii.eqb_spec c sep) as [->|_]; [by rewrite IH|].
    rewrite IH. pose proof (split_nonempty sep x).
    by destruct (split sep x).
Qed.

(** ** [parse_list] *)

Lemma parse_list_not_None raw sep :
  parse_list raw sep =
    if is_None raw then []
    else if nonempty (strip (py_str raw))
         then map strip (List.filter (fun item => nonempty (strip item))
                           (split sep (strip (py_str raw))))
         else [].
Proof. by destruct raw. Qed.

(** X1.  Every item [parse_list] returns is non-empty, has no whitespace at
    either end and does not contain the separator; an absent or blank cell
    gives the empty list. *)
Theorem parse_list_items_clean raw sep :
  Forall (clean_item sep) (parse_list raw sep)
  /\ (blank raw = true -> parse_list raw sep = []).
Proof.
  rewrite parse_list_not_None. split.
  - destruct (is_None raw); [done|]. destruct (nonempty _); [|done].
    apply Forall_forall. intros x Hx.
    apply list_elem_of_fmap in Hx as (item & -> & Hitem).
    apply list_elem_of_In, filter_In in Hitem as [Hin Hne].
    apply nonempty_true in Hne. split; [done|]. split; [apply strip_idemp|].
    intros Hsep%strip_elem. apply list_elem_of_In in Hin.
    by apply split_no_sep in Hin.
  - unfold blank. destruct (is_None raw); [done|]. simpl.
    intros ->%bool_decide_eq_true. done.
Qed.

Lemma join_head sep c t items :
  exists rest, join sep ((c :: t) :: items) = c :: rest.
Proof. destruct items; simpl; by eexists. Qed.

Lemma join_last sep items t c :
  exists rest, join sep (items ++ [t ++ [c]]) = rest ++ [c].
Proof.
  rewrite join_snoc. destruct items as [|y items].
  - by exists t.
  - exists (join sep (y :: items) ++ sep ++ t). by rewrite <- !app_assoc.
Qed.

Lemma clean_item_head sep x :
  clean_item sep x -> exists c t, x = c :: t /\ isspace c = false.
Proof.
  intros (Hne & Hs & _). destruct (strip_head x) as [E|(c & t & E & Hc)];
    rewrite Hs in E; [done|by eexists _, _].
Qed.

Lemma clean_item_last sep x :
  clean_item sep x -> exists t c, x = t ++ [c] /\ isspace c = false.
Proof.
  intros (Hne & Hs & _). destruct (strip_last x) as [E|(t & c & E & Hc)];
    rewrite Hs in E; [done|by eexists _, _].
Qed.

Lemma map_id_on {A} (f : A -> A) l : (forall x, In x l -> f x = x) -> map f l = l.
Proof.
  induction l as [|x l IH]; simpl; [done|]. intros H.
  rewrite H by (by left). rewrite IH; [done|]. intros y Hy. apply H. by right.
Qed.

Lemma filter_all {A} (f : A -> bool) l :
  Forall (fun x => f x = true) l -> List.filter f l = l.
Proof. induction 1 as [|x l Hx _ IH]; simpl; [done|]. by rewrite Hx, IH. Qed.

Lemma parse_list_VStr s sep :
  parse_list (VStr s) sep =
    if nonempty (strip s)
    then map strip (List.filter (fun item => nonempty (strip item)) (split sep (strip s)))
    else [].
Proof. reflexivity. Qed.

(** X2.  Joining clean items with the separator and parsing the result gives
    the items back, in order and with repetitions. *)
Theorem parse_list_join sep items :
  Forall (clean_item sep) items ->
  parse_list (VStr (join [sep] items)) sep = items.
Proof.
  intros Hc. destruct items as [|x items]; [done|].
  assert (strip (join [sep] (x :: items)) = join [sep] (x :: items)) as Hs.
  { apply strip_fixed; right.
    - destruct (clean_item_head sep x) as (c & t & -> & Hsp); [by inversion Hc|].
      destruct (join_head [sep] c t items) as [rest ->]. by eexists _, _.
    - destruct (exists_last (l := x :: items)) as (front & y & E); [done|].
      rewrite E in *. apply Forall_app in Hc as [_ Hy].
      destruct (clean_item_last sep y) as (t & c & -> & Hsp); [by inversion Hy|].
      destruct (join_last [sep] front t c) as [rest ->]. by eexists _, _. }
  rewrite parse_list_VStr, Hs.
  assert (nonempty (join [sep] (x :: items)) = true) as ->.
  { apply nonempty_true. destruct (clean_item_head sep x) as (c & t & -> & _);
      [by inversion Hc|]. by destruct (join_head [sep] c t items) as [rest ->]. }
  rewrite split_join; [|done|].
  - rewrite filter_all.
    + apply map_id_on. intros y Hy%list_elem_of_In.
      by eapply Forall_forall in Hc as (_ & ? & _).
    + eapply Forall_impl; [exact Hc|]. intros y (Hne & Hy & _). simpl.
      rewrite Hy. by apply nonempty_true.
  - eapply Forall_impl; [exact Hc|]. by intros y (_ & _ & ?).
Qed.

Lemma parse_list_join_witness :
  parse_list (VStr (join ";" ["a.pdf" : str; "b c.pdf" : str; "a.pdf" : str])) ";"
  = ["a.pdf" : str; "b c.pdf" : str; "a.pdf" : str].
Proof.
  apply (parse_list_join ";" ["a.pdf" : str; "b c.pdf" : str; "a.pdf" : str]).
  repeat (apply Forall_cons_2; [split; [done|split; [by vm_compute|compute_done]]|]).
  apply Forall_nil_2.
Defined.

(** ** [yaml_quote] *)

Lemma escape_inj s t : escape s = escape t -> s = t.
Proof.
  revert t. induction s as [|c s IH]; intros [|c' t]; simpl.
  - done.
  - destruct (Ascii.eqb c' BS); [done|]. by destruct (Ascii.eqb c' DQ).
  - destruct (Ascii.eqb c BS); [done|]. by destruct (Ascii.eqb c DQ).
  - destruct (Ascii.eqb_spec c BS) as [->|Hb]; destruct (Ascii.eqb_spec c' BS) as [->|Hb'];
      simpl.
    + intros [= H]. f_equal. by apply IH.
    + destruct (Ascii.eqb_spec c' DQ) as [->|Hq']; simpl; [done|]. by intros [= <-].
    + destruct (Ascii.eqb_spec c DQ) as [->|Hq]; simpl; [done|]. by intros [= ->].
    + destruct (Ascii.eqb_spec c DQ) as [->|Hq]; destruct (Ascii.eqb_spec c' DQ) as [->|Hq'];
        simpl.
      * intros [= H]. f_equal. by apply IH.
      * by intros [= <-].
      * by intros [= ->].
      * intros [= -> H]. f_equal. by apply IH.
Qed.

(** X3.  [yaml_quote] puts its argument between double quotes and loses
    nothing: different strings have different quoted forms. *)
Theorem yaml_quote_inj s t :
  (exists body, yaml_quote s = [DQ] ++ body ++ [DQ])
  /\ (yaml_quote s = yaml_quote t -> s = t).
Proof.
  split; [by eexists|].
  rewrite !yaml_quote_quoted. unfold quoted. intros [= H].
  apply app_inv_tail in H. by apply escape_inj.
Qed.

(** ** The shape of an id *)

Lemma slug_id_Ok_digits raw width s :
  slug_id raw width = Ok s ->
  let digits := List.filter isdigit (remove_suffix ".0" (strip (py_str raw))) in
  forallb isdigit s = true
  /\ s <> []
  /\ digits `suffix_of` s
  /\ Z.of_nat (length s) = Z.max width (Z.of_nat (length digits)).
Proof.
  intros H digits. destruct (is_None raw) eqn:E; [by destruct raw|].
  rewrite (slug_id_digits _ _ E) in H. fold digits in H.
  pose proof (filter_all_digits (remove_suffix ".0" (strip (py_str raw)))) as Hd.
  fold digits in Hd.
  destruct digits as [|c ds] eqn:Ed; [done|]. injection H as <-.
  unfold pad_left. split; [|split; [|split]].
  - by rewrite forallb_digits_app, forallb_digits_zeros, Hd.
  - by destruct (repeat _ _).
  - by eexists.
  - rewrite length_app, repeat_length. lia.
Qed.

(** X4.  When [slug_id] returns, its result consists of digits only, is not
    empty, ends with the digits that remain of the raw value (none is cut
    off) and is as long as the width, or as long as those digits when there
    are more of them. *)
Theorem slug_id_shape raw width s :
  slug_id raw width = Ok s ->
  let digits := List.filter isdigit (remove_suffix ".0" (strip (py_str raw))) in
  forallb isdigit s = true
  /\ s <> []
  /\ digits `suffix_of` s
  /\ Z.of_nat (length s) = Z.max width (Z.of_nat (length digits)).
Proof. apply slug_id_Ok_digits. Qed.

Lemma slug_id_shape_witness :
  forallb isdigit ("0001234567" : str) = true
  /\ ("0001234567" : str) <> []
  /\ List.filter isdigit (remove_suffix ".0" (strip (py_str (VStr "no. 1234567"))))
     `suffix_of` ("0001234567" : str)
  /\ Z.of_nat (length ("0001234567" : str))
     = Z.max 10 (Z.of_nat (length (List.filter isdigit
         (remove_suffix ".0" (strip (py_str (VStr "no. 1234567"))))))).
Proof.
  apply (slug_id_shape (VStr "no. 1234567") 10 "0001234567"). by vm_compute.
Defined.

(** ** Dates *)

Lemma isoformat_nonempty d : isoformat d <> [].
Proof. unfold isoformat. by destruct (pad_num 4 (year d)). Qed.

Lemma parse_date_blank raw : blank raw = true -> parse_date raw = Ok None.
Proof. unfold blank, parse_date. by intros ->. Qed.

(** X5.  [parse_date] returns [None] exactly for an absent or blank cell,
    and a string it returns is never empty: the fallback to the date of
    the run is taken for absent and blank cells only. *)
Theorem parse_date_None_iff_blank raw :
  (parse_date raw = Ok None <-> blank raw = true)
  /\ (forall s, parse_date raw = Ok (Some s) -> s <> []).
Proof.
  destruct (blank raw) eqn:B.
  - rewrite (parse_date_blank _ B). split; [done|]. by intros s [=].
  - rewrite (parse_date_not_blank _ B).
    assert (strip (py_str raw) <> []) as Hs.
    { unfold blank in B. apply orb_false_iff in B as [_ B].
      by apply bool_decide_eq_false in B. }
    assert (forall r : result (option str),
              (exists s, s <> [] /\ r = Ok (Some s)) \/ (exists e, r = Raise e) ->
              (r = Ok None <-> false = true)
              /\ (forall s, r = Ok (Some s) -> s <> [])) as Hr.
    { intros r [(s & Hne & ->)|[e ->]]; split; try done. by intros s' [= <-]. }
    apply Hr. clear Hr.
    assert (forall s, (exists s', s' <> [] /\
              match match_ymd s with
              | Some (y, mo, d) =>
                  dd ← date_new (int_of_digits y) (int_of_digits mo) (int_of_digits d);
                  Ok (Some (isoformat dd))
              | None => Ok (Some (strip (py_str raw)))
              end = Ok (Some s'))
            \/ (exists e, match match_ymd s with
              | Some (y, mo, d) =>
                  dd ← date_new (int_of_digits y) (int_of_digits mo) (int_of_digits d);
                  Ok (Some (isoformat dd))
              | None => Ok (Some (strip (py_str raw)))
              end = Raise e)) as Hm.
    { intros s. destruct (match_ymd s) as [[[y mo] d]|]; [|left; by eexists].
      unfold date_new. destruct (valid_date _ _ _); simpl.
      - left. eexists. split; [apply isoformat_nonempty|done].
      - right. by eexists. }
    destruct raw; try apply Hm; left; eexists; (split; [apply isoformat_nonempty|done]).
Qed.

(** Decimal numerals of two and four digits, checked over their range. *)
Lemma pad_num_4 y :
  y < 100 * 100 ->
  forallb isdigit (pad_num 4 y) = true /\ length (pad_num 4 y) = 4
  /\ int_of_digits (pad_num 4 y) = y.
Proof.
  intros Hy.
  assert (forallb (fun y => forallb isdigit (pad_num 4 y)
                            && (length (pad_num 4 y) =? 4)
                            && (int_of_digits (pad_num 4 y) =? y))
            (seq 0 (100 * 100)) = true) as H by (vm_compute; reflexivity).
  rewrite forallb_forall in H. specialize (H y).
  rewrite !andb_true_iff, !Nat.eqb_eq in H.
  destruct H as [[? ?] ?]; [apply in_seq; lia|done].
Qed.

Lemma pad_num_2 n :
  n < 100 ->
  forallb isdigit (pad_num 2 n) = true /\ length (pad_num 2 n) = 2
  /\ int_of_digits (pad_num 2 n) = n.
Proof.
  intros Hn.
  assert (forallb (fun n => forallb isdigit (pad_num 2 n)
                            && (length (pad_num 2 n) =? 2)
                            && (int_of_digits (pad_num 2 n) =? n))
            (seq 0 100) = true) as H by (vm_compute; reflexivity).
  rewrite forallb_forall in H. specialize (H n).
  rewrite !andb_true_iff, !Nat.eqb_eq in H.
  destruct H as [[? ?] ?]; [apply in_seq; lia|done].
Qed.

Lemma days_in_month_le y mo : days_in_month y mo <= 31.
Proof.
  unfold days_in_month.
  do 13 (destruct mo as [|mo]; [try lia; destruct (is_leap y); lia|]). lia.
Qed.

Lemma valid_date_bounds y mo d :
  valid_date y mo d = true -> y < 100 * 100 /\ mo < 100 /\ d < 100.
Proof.
  unfold valid_date. rewrite !andb_true_iff, !Nat.leb_le.
  assert (9999 = 99 * 100 + 99) as -> by reflexivity.
  pose proof (days_in_month_le y mo). lia.
Qed.

Lemma digits_head s :
  forallb isdigit s = true -> s <> [] ->
  exists c t, s = c :: t /\ isspace c = false.
Proof.
  destruct s as [|c t]; [done|]. simpl. intros [Hc _]%andb_true_iff _.
  exists c, t. split; [done|by apply isdigit_not_space].
Qed.

Lemma digits_last s :
  forallb isdigit s = true -> s <> [] ->
  exists t c, s = t ++ [c] /\ isspace c = false.
Proof.
  intros Hd Hne. destruct (exists_last Hne) as (t & c & ->).
  exists t, c. split; [done|]. rewrite forallb_digits_app in Hd.
  apply andb_true_iff in Hd as [_ Hd]. simpl in Hd.
  apply isdigit_not_space. by destruct (isdigit c).
Qed.

(** The ISO form of a calendar date parses to itself. *)
Lemma parse_date_isoformat y mo d :
  valid_date y mo d = true ->
  parse_date (VStr (isoformat (Date y mo d))) = Ok (Some (isoformat (Date y mo d))).
Proof.
  intros Hv. destruct (valid_date_bounds _ _ _ Hv) as (Hy & Hmo & Hd).
  destruct (pad_num_4 y Hy) as (Y1 & Y2 & Y3).
  destruct (pad_num_2 mo Hmo) as (M1 & M2 & M3).
  destruct (pad_num_2 d Hd) as (D1 & D2 & D3).
  set (s := isoformat (Date y mo d)).
  assert (s = pad_num 4 y ++ "-"%char :: pad_num 2 mo ++ "-"%char :: pad_num 2 d)
    as Es by done.
  assert (strip s = s) as Hs.
  { apply strip_fixed; right.
    - destruct (digits_head (pad_num 4 y)) as (c & t & E & Hc);
        [done|by destruct (pad_num 4 y)|].
      rewrite Es, E. by eexists _, _.
    - destruct (digits_last (pad_num 2 d)) as (t & c & E & Hc);
        [done|by destruct (pad_num 2 d)|].
      rewrite Es, E. eexists (pad_num 4 y ++ "-"%char :: pad_num 2 mo ++ "-"%char :: t), c.
      split; [|done]. rewrite <- app_assoc. simpl. by rewrite <- app_assoc. }
  assert (loose_ymd s = Some (y, mo, d)) as Hl.
  { unfold loose_ymd. rewrite Es.
    rewrite (split_digits_dash (pad_num 4 y)) by done.
    rewrite (split_digits_dash (pad_num 2 mo)), split_digits by done.
    by rewrite Y1, Y2, Y3, M1, M2, M3, D1, D2, D3. }
  destruct (loose_is_match_ymd _ _ Hl) as ([[gy gm] gd] & Hg & [= -> -> ->]).
  rewrite parse_date_not_blank.
  - simpl py_str. rewrite Hs, Hg. unfold date_new. by rewrite Hv.
  - unfold blank. simpl. rewrite Hs. apply bool_decide_eq_false.
    rewrite Es. by destruct (pad_num 4 _).
Qed.

(** X6.  [parse_date] maps its own result to itself: a date it has returned
    for a cell is returned unchanged when it is read again as a string. *)
Theorem parse_date_idempotent raw s :
  well_formed raw ->
  parse_date raw = Ok (Some s) ->
  parse_date (VStr s) = Ok (Some s).
Proof.
  intros Hw H. destruct (blank raw) eqn:B; [by rewrite parse_date_blank in H|].
  rewrite (parse_date_not_blank _ B) in H.
  assert (strip (py_str raw) <> []) as Hne.
  { unfold blank in B. apply orb_false_iff in B as [_ B].
    by apply bool_decide_eq_false in B. }
  assert (match match_ymd (strip (py_str raw)) with
          | Some (y, mo, d) =>
              dd ← date_new (int_of_digits y) (int_of_digits mo) (int_of_digits d);
              Ok (Some (isoformat dd))
          | None => Ok (Some (strip (py_str raw)))
          end = Ok (Some s) ->
          parse_date (VStr s) = Ok (Some s)) as Hstr.
  { destruct (match_ymd (strip (py_str raw))) as [[[gy gm] gd]|] eqn:Hm.
    - unfold date_new. destruct (valid_date _ _ _) eqn:Hv; [|done].
      intros [= <-]. by apply parse_date_isoformat.
    - intros [= <-]. rewrite parse_date_not_blank.
      + simpl py_str. by rewrite strip_idemp, Hm.
      + unfold blank. simpl. rewrite strip_idemp. by apply bool_decide_eq_false. }
  destruct raw as [| | | | |[y mo d]|[y mo d] t]; try (by apply Hstr);
    injection H as <-; by apply parse_date_isoformat.
Qed.

Lemma parse_date_idempotent_witness :
  parse_date (VStr "2024-03-05") = Ok (Some ("2024-03-05" : str)).
Proof.
  apply (parse_date_idempotent (VStr " 2024-3-5 ") "2024-03-05"); [exact I|].
  by vm_compute.
Defined.

(** ** Column names *)

Lemma headers_of_trimmed row0 h : h ∈ headers_of row0 -> strip h = h.
Proof.
  unfold headers_of. intros (x & -> & _)%list_elem_of_fmap.
  destruct (is_None x); [done|apply strip_idemp].
Qed.

(** X7.  Header cells are trimmed before they are indexed and column names
    are not: a column name with whitespace at either end matches no header,
    and its cell is [None] in every row. *)
Theorem untrimmed_name_not_found row0 row col_name :
  strip col_name <> col_name ->
  cell (header_index (headers_of row0)) row col_name = Ok VNone.
Proof.
  intros Hs. unfold cell. rewrite header_index_lookup.
  destruct (nonempty col_name); [|done].
  destruct (find_last col_name (headers_of row0)) as [i|] eqn:E; [|done].
  apply find_last_Some in E as [E _].
  apply list_elem_of_lookup_2, headers_of_trimmed in E. done.
Qed.

Lemma untrimmed_name_not_found_witness :
  cell (header_index (headers_of example_header)) example_row " id" = Ok VNone.
Proof. apply (untrimmed_name_not_found example_header example_row " id"). by vm_compute. Defined.

(** ** Counters and events *)

Lemma write_policy_counts a d st st' :
  write_policy a d st = Ok st' ->
  written st' + skipped st' = S (written st + skipped st)
  /\ (write a = false -> exists ev, out st' = out st ++ [ev] /\ is_Wrote ev = false).
Proof.
  unfold write_policy. destruct (_ && _).
  - intros [= <-]. simpl. split; [lia|]. intros _. by eexists.
  - destruct (write a).
    + intros (f & _ & [= <-])%bind_Ok. simpl. split; [lia|done].
    + intros [= <-]. simpl. split; [lia|]. intros _. by eexists.
Qed.

Lemma process_row_counts a hi today r st st' :
  process_row a hi today r st = Ok st' ->
  written st' + skipped st' = S (written st + skipped st)
  /\ (write a = false -> Forall (fun ev => is_Wrote ev = false) (out st) ->
      Forall (fun ev => is_Wrote ev = false) (out st')).
Proof.
  rewrite process_row_eq. cbv zeta. destruct (missing_required _ _).
  - intros [= <-]. simpl. split; [lia|done].
  - intros (d & _ & Hp)%bind_Ok.
    destruct (write_policy_counts _ _ _ _ Hp) as [Hc Hev]. split; [done|].
    intros Hw Hall. destruct (Hev Hw) as (ev & -> & Hne).
    apply Forall_app. split; [done|by constructor].
Qed.

Lemma process_rows_counts a hi today rows st :
  (process_rows a hi today rows st).2 = None ->
  written (process_rows a hi today rows st).1 + skipped (process_rows a hi today rows st).1
  = written st + skipped st + length rows.
Proof.
  revert st. induction rows as [|r rows IH]; intros st; simpl; [lia|].
  destruct (process_row a hi today r st) as [st'|e] eqn:Hr; [|done].
  intros H. rewrite (IH _ H).
  destruct (process_row_counts _ _ _ _ _ _ Hr) as [Hc _]. lia.
Qed.

(** X8.  In a run that ends without an exception every data row is counted
    once, as written or as skipped, and the last line printed reports the
    two counters. *)
Theorem main_counts_every_row a today rows f st :
  main a today rows f = (st, None) ->
  written st + skipped st = length rows - 1
  /\ last (out st) = Some (Done (write a) (written st) (skipped st)).
Proof.
  destruct rows as [|row0 data]; [done|]. simpl.
  destruct (mkdir_parents (output_dir a) f) as [f1|e]; [|done].
  pose proof (process_rows_counts a (header_index (headers_of row0)) today data
                (State f1 [] 0 0)) as Hc.
  destruct (process_rows _ _ _ _ _) as [st1 [e|]]; [done|].
  intros [= <-]. simpl in *. split; [rewrite Hc by done; lia|].
  by rewrite last_snoc.
Qed.

Lemma main_counts_every_row_witness :
  written (State (Fsys {[ ["works" : str] ]} ∅)
                 [DryRun ["works" : str; "00361.md" : str] false; Done false 1 1] 1 1)
  + skipped (State (Fsys {[ ["works" : str] ]} ∅)
                 [DryRun ["works" : str; "00361.md" : str] false; Done false 1 1] 1 1)
  = length [example_header; [VInt 7]; example_row] - 1
  /\ last (out (State (Fsys {[ ["works" : str] ]} ∅)
                 [DryRun ["works" : str; "00361.md" : str] false; Done false 1 1] 1 1))
     = Some (Done (write (default_args false false)) 1 1).
Proof.
  apply (main_counts_every_row (default_args false false) "2026-11-04"
           [example_header; [VInt 7]; example_row] empty_fs).
  by vm_compute.
Defined.

Lemma process_rows_dry_events a hi today rows st :
  write a = false ->
  Forall (fun ev => is_Wrote ev = false) (out st) ->
  Forall (fun ev => is_Wrote ev = false) (out (process_rows a hi today rows st).1).
Proof.
  intros Hw. revert st. induction rows as [|r rows IH]; intros st Hall; simpl; [done|].
  destruct (process_row a hi today r st) as [st'|e] eqn:Hr; [|done].
  apply IH. destruct (process_row_counts _ _ _ _ _ _ Hr) as [_ H]. by apply H.
Qed.

(** X9.  A dry run changes no regular file and prints no [WRITE:] line; the
    one thing it may add to the file system is the output directory with
    the ancestors it lacks. *)
Theorem dry_run_effects a today rows f :
  write a = false ->
  files (fs (main a today rows f).1) = files f
  /\ (dirs (fs (main a today rows f).1) = dirs f
      \/ dirs (fs (main a today rows f).1)
         = dirs f ∪ list_to_set (prefixes (output_dir a)))
  /\ Forall (fun ev => is_Wrote ev = false) (out (main a today rows f).1).
Proof.
  intros Hw. destruct (dry_run_keeps_files a today rows f Hw) as [H1 H2].
  split; [done|]. split; [done|].
  destruct rows as [|row0 data]; [by constructor|]. simpl.
  destruct (mkdir_parents (output_dir a) f) as [f1|e]; [|by constructor].
  pose proof (process_rows_dry_events a (header_index (headers_of row0)) today data
                (State f1 [] 0 0) Hw) as Hev.
  destruct (process_rows _ _ _ _ _) as [st1 [e|]]; simpl in *.
  - apply Hev. constructor.
  - apply Forall_app. split; [apply Hev; constructor|by constructor].
Qed.

Lemma dry_run_effects_witness :
  files (fs (main (default_args false true) "2026-11-04"
               [example_header; example_row] empty_fs).1) = files empty_fs
  /\ (dirs (fs (main (default_args false true) "2026-11-04"
                  [example_header; example_row] empty_fs).1) = dirs empty_fs
      \/ dirs (fs (main (default_args false true) "2026-11-04"
                     [example_header; example_row] empty_fs).1)
         = dirs empty_fs ∪ list_to_set (prefixes (output_dir (default_args false true))))
  /\ Forall (fun ev => is_Wrote ev = false)
       (out (main (default_args false true) "2026-11-04"
               [example_header; example_row] empty_fs).1).
Proof.
  apply (dry_run_effects (default_args false true) "2026-11-04"
           [example_header; example_row] empty_fs).
  reflexivity.
Defined.

(** ** The exceptions of a run *)






(** ** Runs that overwrite *)





Section Overwrite.
  Variable a : args.
  Hypothesis write_on : write a = true.
  Hypothesis force_on : force a = true.

Lemma process_row_force hi today r st :
  process_row a hi today r st =
    match row_page a hi today r with
    | Raise e => Raise e
    | Ok None => Ok (count_skipped st)
    | Ok (Some (p, c)) =>
        if bool_decide (p ∈ dirs (fs st)) then Raise (OSError p)
        else Ok (State (Fsys (dirs (fs st)) (<[p := c]> (files (fs st))))
                   (out st ++ [Wrote p]) (S (written st)) (skipped st))
    end.
Proof.
  rewrite process_row_eq. unfold row_page. cbv zeta.
  destruct (missing_required _ _); [done|].
  destruct (build_document _ _ _ _ _ _) as [d|e]; cbn [mbind result_bind]; [|done].
  unfold write_policy. rewrite force_on, write_on, andb_false_r.
  fold (page_path a (doc_id d)). unfold write_text.
  by destruct (bool_decide _).
Qed.



Lemma process_rows_keeps hi today rows st p :
  (process_rows a hi today rows st).2 = None ->
  Forall (fun r' => forall c', row_page a hi today r' <> Ok (Some (p, c'))) rows ->
  files (fs (process_rows a hi today rows st).1) !! p = files (fs st) !! p.
Proof.
  revert st. induction rows as [|r rows IH]; intros st; simpl; [done|].
  rewrite process_row_force. intros Hend [Hr Hrows]%Forall_cons.
  destruct (row_page a hi today r) as [[[q c]|]|e]; [|by rewrite IH|done].
  destruct (bool_decide (q ∈ dirs (fs st))); [done|].
  rewrite IH by done. simpl. apply lookup_insert_ne. intros ->. by eapply Hr.
Qed.

(** X12.  With write and force, in a run that ends without an exception,
    the page of a row holds the content built from that row, unless a later
    row writes the same page: of the rows with one id, the last one wins. *)
Theorem last_row_wins hi today before r after st st' p c :
  process_rows a hi today (before ++ r :: after) st = (st', None) ->
  row_page a hi today r = Ok (Some (p, c)) ->
  Forall (fun r' => forall c', row_page a hi today r' <> Ok (Some (p, c'))) after ->
  files (fs st') !! p = Some c.
Proof.
  rewrite process_rows_app. intros Hrun Hr Hafter.
  destruct (process_rows a hi today before st) as [st1 [e|]]; [done|].
  simpl in Hrun. rewrite process_row_force, Hr in Hrun.
  destruct (bool_decide (p ∈ dirs (fs st1))); [done|].
  match type of Hrun with process_rows _ _ _ _ ?s = _ => set (st2 := s) in * end.
  pose proof (process_rows_keeps hi today after st2 p) as Hk.
  rewrite Hrun in Hk. simpl in Hk. rewrite Hk by done.
  apply lookup_insert_eq.
Qed.

End Overwrite.




Lemma last_row_wins_witness :
  files (fs (process_rows (default_args true true) example_index "2026-11-04"
               ([example_row] ++ bare_row :: [[VInt 7]])
               (initial_state (Fsys {[ ["works" : str] ]} ∅))).1)
    !! ["works" : str; "00361.md" : str]
  = Some (join [NL]
            [ "---" : str;
              "title: " ++ quoted "Untitled";
              "date: " ++ quoted "2026-11-04";
              "layout: " ++ quoted "theme";
              "work_id: " ++ quoted "00361";
              "---" : str; "" : str; "" : str ]).
Proof.
  destruct (process_rows (default_args true true) example_index "2026-11-04"
              ([example_row] ++ bare_row :: [[VInt 7]])
              (initial_state (Fsys {[ ["works" : str] ]} ∅))) as [st' [e|]] eqn:E;
    [vm_compute in E; discriminate E|].
  apply (last_row_wins (default_args true true) eq_refl eq_refl example_index
           "2026-11-04" [example_row] bare_row [[VInt 7]] _ st' _ _ E).
  - vm_compute. reflexivity.
  - apply Forall_cons_2; [|apply Forall_nil_2]. intros c' H.
    vm_compute in H. discriminate H.
Defined.

(** ** The order of the keys *)

Lemma emitted_keys_sublist d : emitted_keys d `sublist_of` map fst d.
Proof.
  unfold emitted_keys. induction d as [|[k v] d IH]; simpl; [constructor|].
  destruct (not_None (k, v)); simpl; by constructor.
Qed.

Lemma with_permalink_keys a wid fm fm' :
  map fst fm = front_matter_keys ->
  with_permalink a wid fm = Ok fm' ->
  match permalink a with
  | Some _ => exists link, fm' = fm ++ [("permalink" : str, Scalar (VStr link))]
  | None => fm' = fm
  end.
Proof.
  intros Hk. unfold with_permalink. destruct (permalink a) as [format|].
  - intros (link & _ & [= <-])%bind_Ok. exists link.
    apply dict_set_fresh. rewrite Hk. by compute_done.
  - by intros [= <-].
Qed.

(** X14.  The keys of a page are those of the [fm] literal, in its order,
    followed by [permalink] when a template is given; the metadata block
    lists the keys that have a value in that order, so every block starts
    with title, date, layout and work_id, and ends with the permalink
    exactly when there is a template. *)
Theorem front_matter_key_order a hi today r raw_id raw_title d :
  build_document a hi today r raw_id raw_title = Ok d ->
  map fst (doc_fm d)
  = front_matter_keys
    ++ match permalink a with Some _ => ["permalink" : str] | None => [] end
  /\ emitted_keys (doc_fm d) `sublist_of` map fst (doc_fm d)
  /\ take 4 (emitted_keys (doc_fm d))
     = ["title" : str; "date" : str; "layout" : str; "work_id" : str]
  /\ (is_Some (permalink a) <-> last (emitted_keys (doc_fm d)) = Some ("permalink" : str)).
Proof.
  intros (wid & parsed & cat & fm & Hw & Hp & Hc & Hf & ->)%build_document_Ok.
  simpl doc_fm. apply with_permalink_keys in Hf; [|apply row_front_matter_keys].
  split; [|split; [apply emitted_keys_sublist|]].
  - destruct (permalink a); [destruct Hf as [link ->]|subst fm].
    + by rewrite map_app, row_front_matter_keys.
    + by rewrite app_nil_r, row_front_matter_keys.
  - destruct (permalink a) as [format|]; [destruct Hf as [link ->]|subst fm].
    + split; [done|]. split; [intros _|by eexists].
      unfold emitted_keys. rewrite List.filter_app, map_app.
      change (map fst (List.filter not_None [("permalink" : str, Scalar (VStr link))]))
        with ["permalink" : str].
      apply last_snoc.
    + split; [done|]. split; [by intros [? ?]|]. intros Hl.
      exfalso. assert (("permalink" : str) ∉ front_matter_keys) as Hnot by compute_done.
      apply Hnot.
      rewrite <- (row_front_matter_keys a hi today r wid (strip (py_str raw_title))
                    parsed cat).
      eapply elem_of_sublist; [|apply emitted_keys_sublist].
      apply last_Some_elem_of. exact Hl.
Qed.

Lemma front_matter_key_order_witness :
  exists d,
    build_document (default_args true false) example_index "2026-11-04"
      example_row (VInt 361) (VStr "Untitled") = Ok d
    /\ take 4 (emitted_keys (doc_fm d))
       = ["title" : str; "date" : str; "layout" : str; "work_id" : str].
Proof.
  destruct (build_document (default_args true false) example_index "2026-11-04"
              example_row (VInt 361) (VStr "Untitled")) as [d|e] eqn:E;
    [|vm_compute in E; discriminate E].
  exists d. split; [reflexivity|].
  destruct (front_matter_key_order _ _ _ _ _ _ _ E) as (_ & _ & H & _). exact H.
Defined.

(** ** The links to the attachments *)

Lemma last_app_nonempty {A} (l1 l2 : list A) d :
  l2 <> [] -> List.last (l1 ++ l2) d = List.last l2 d.
Proof.
  intros Hne. induction l1 as [|x l1 IH]; [done|].
  simpl app. rewrite <- IH. simpl. destruct (l1 ++ l2) eqn:E; [|done].
  apply app_eq_nil in E as [_ ->]. done.
Qed.

Lemma last_segment_app x s : last_segment (x ++ "/"%char :: s) = last_segment s.
Proof.
  unfold last_segment. rewrite split_app. apply last_app_nonempty, split_nonempty.
Qed.

Lemma last_segment_url base wid name :
  last_segment (base ++ "/" ++ wid ++ "/files/" ++ name) = last_segment name.
Proof.
  transitivity (last_segment ((base ++ "/" ++ wid ++ "/files") ++ "/"%char :: name)).
  - f_equal. by rewrite <- !app_assoc.
  - apply last_segment_app.
Qed.

Lemma supplements_nonempty urls :
  urls <> [] ->
  body_supplements urls
  = ["## Supplements" : str]
    ++ map (fun url => "- [" ++ last_segment url ++ "](" ++ url ++ ")") urls ++ [[]].
Proof. by destruct urls. Qed.

(** X13.  The body of a page has, after the notes, one line per attachment
    under the heading, in the order of the cell; the link goes to
    assets_base/id/files/name, and its text is the part of the name after
    its last slash, which is the name itself when it has no slash. *)
Theorem attachment_links a hi today r raw_id raw_title d :
  build_document a hi today r raw_id raw_title = Ok d ->
  let names := parse_list (cell_value hi r (attachments_col a)) ";" in
  doc_body d
  = body_notes (cell_value hi r (notes_col a))
    ++ match names with
       | [] => []
       | _ => ["## Supplements" : str]
              ++ map (fun name => "- [" ++ last_segment name ++ "]("
                                  ++ assets_base a ++ "/" ++ doc_id d ++ "/files/" ++ name
                                  ++ ")") names
              ++ [[]]
       end
  /\ (forall name : str, "/"%char ∉ name -> last_segment name = name).
Proof.
  intros (wid & parsed & cat & fm & Hw & Hp & Hc & Hf & ->)%build_document_Ok.
  cbv zeta. cbn [doc_body doc_id]. split.
  - unfold row_body. f_equal.
    destruct (parse_list _ _) as [|x l]; [done|].
    rewrite supplements_nonempty by done. rewrite map_map.
    do 2 f_equal. apply map_ext. intros name.
    rewrite last_segment_url. by rewrite <- !app_assoc.
  - intros name Hn. unfold last_segment. by rewrite split_single.
Qed.

Lemma attachment_links_witness :
  exists d,
    build_document (default_args true false) example_index "2026-11-04"
      example_row (VInt 361) (VStr "Untitled") = Ok d
    /\ doc_body d
       = [ "Some notes" : str; "" : str; "## Supplements" : str;
           "- [a.pdf](/assets/works/00361/files/a.pdf)" : str;
           "- [b.pdf](/assets/works/00361/files/b.pdf)" : str; "" : str ].
Proof.
  destruct (build_document (default_args true false) example_index "2026-11-04"
              example_row (VInt 361) (VStr "Untitled")) as [d|e] eqn:E;
    [|vm_compute in E; discriminate E].
  exists d. split; [reflexivity|].
  destruct (attachment_links _ _ _ _ _ _ _ E) as [H _].
  rewrite H. vm_compute in E. injection E as <-. reflexivity.
Defined.

(** ** Runs that do not overwrite *)

Section KeepExisting.
  Variable a : args.
  Hypothesis write_on : write a = true.
  Hypothesis force_off : force a = false.

Lemma process_row_keep hi today r st :
  process_row a hi today r st =
    match row_page a hi today r with
    | Raise e => Raise e
    | Ok None => Ok (count_skipped st)
    | Ok (Some (p, c)) =>
        if path_exists p (fs st)
        then Ok (State (fs st) (out st ++ [SkipExists p]) (written st) (S (skipped st)))
        else Ok (State (Fsys (dirs (fs st)) (<[p := c]> (files (fs st))))
                   (out st ++ [Wrote p]) (S (written st)) (skipped st))
    end.
Proof.
  rewrite process_row_eq. unfold row_page. cbv zeta.
  destruct (missing_required _ _); [done|].
  destruct (build_document _ _ _ _ _ _) as [d|e]; cbn [mbind result_bind]; [|done].
  unfold write_policy. rewrite force_off, write_on, andb_true_r.
  fold (page_path a (doc_id d)).
  destruct (path_exists _ _) eqn:He; [done|].
  unfold write_text. unfold path_exists in He.
  apply orb_false_iff in He as [-> _]. done.
Qed.

Lemma process_rows_keep_other hi today rows st p :
  Forall (fun r' => forall c', row_page a hi today r' <> Ok (Some (p, c'))) rows ->
  path_exists p (fs (process_rows a hi today rows st).1) = path_exists p (fs st).
Proof.
  revert st. induction rows as [|r rows IH]; intros st; simpl; [done|].
  rewrite process_row_keep. intros [Hr Hrows]%Forall_cons.
  destruct (row_page a hi today r) as [[[q c]|]|e]; [|by rewrite IH|done].
  destruct (path_exists q (fs st)); [by rewrite IH|].
  rewrite IH by done. unfold path_exists. simpl.
  rewrite lookup_insert_ne; [done|]. intros ->. by eapply Hr.
Qed.

(** X15.  With write and without force, in a loop that ends without an
    exception: a page that does not exist when the loop starts, and that no
    row before [r] has, holds at the end the content built from [r], whatever
    the rows after [r] are: of the rows with one id, the first one wins. *)
Theorem first_row_wins hi today before r after st st' p c :
  process_rows a hi today (before ++ r :: after) st = (st', None) ->
  Forall (fun r' => forall c', row_page a hi today r' <> Ok (Some (p, c'))) before ->
  path_exists p (fs st) = false ->
  row_page a hi today r = Ok (Some (p, c)) ->
  files (fs st') !! p = Some c /\ Wrote p ∈ out st'.
Proof.
  rewrite process_rows_app. intros Hrun Hbefore Hex Hr.
  pose proof (process_rows_keep_other hi today before st p Hbefore) as Hk.
  destruct (process_rows a hi today before st) as [st1 [e|]]; [done|].
  simpl in Hk. simpl in Hrun. rewrite process_row_keep, Hr, Hk, Hex in Hrun.
  match type of Hrun with process_rows _ _ _ _ ?s = _ => set (st2 := s) in * end.
  destruct (process_rows_rerun a force_off hi today after st2) as [Hext _].
  destruct (process_rows_rerun_report a force_off hi today after st2 write_on
              today (process_rows a hi today after st2).1)
    as (_ & _ & E1 & _ & Ho & _); [apply extends_refl|].
  rewrite Hrun in Hext, Ho. simpl in Hext, Ho. split.
  - eapply extends_files; [exact Hext|]. apply lookup_insert_eq.
  - rewrite Ho. apply elem_of_app. left. apply elem_of_app. right.
    apply list_elem_of_here.
Qed.

End KeepExisting.

Lemma first_row_wins_witness :
  files (fs (process_rows (default_args true false) example_index "2026-11-04"
               ([[VInt 7]] ++ example_row :: [bare_row])
               (initial_state (Fsys {[ ["works" : str] ]} ∅))).1)
    !! ["works" : str; "00361.md" : str]
  = Some (join [NL]
            [ "---" : str;
              "title: " ++ quoted "Untitled";
              "date: " ++ quoted "2023-05-01";
              "layout: " ++ quoted "theme";
              "work_id: " ++ quoted "00361";
              "tags: [" ++ quoted "red" ++ ", " ++ quoted "blue" ++ "]";
              "---" : str;
              "Some notes" : str;
              "" : str;
              "## Supplements" : str;
              "- [a.pdf](/assets/works/00361/files/a.pdf)" : str;
              "- [b.pdf](/assets/works/00361/files/b.pdf)" : str;
              "" : str ]).
Proof.
  destruct (process_rows (default_args true false) example_index "2026-11-04"
              ([[VInt 7]] ++ example_row :: [bare_row])
              (initial_state (Fsys {[ ["works" : str] ]} ∅))) as [st' [e|]] eqn:E;
    [vm_compute in E; discriminate E|].
  simpl.
  refine (proj1 (first_row_wins (default_args true false) eq_refl eq_refl example_index
                   "2026-11-04" [[VInt 7]] example_row [bare_row] _ st' _ _ E _ _ _)).
  - apply Forall_cons_2; [|apply Forall_nil_2]. intros c' H.
    vm_compute in H. discriminate H.
  - vm_compute. reflexivity.
  - vm_compute. reflexivity.
Defined.

(** ** Where a run writes *)

Lemma build_document_id a hi today r raw_id raw_title d :
  build_document a hi today r raw_id raw_title = Ok d ->
  forallb isdigit (doc_id d) = true /\ 5 <= length (doc_id d).
Proof.
  intros (wid & parsed & cat & fm & Hw & _ & _ & _ & ->)%build_document_Ok.
  simpl. destruct (slug_id_Ok_digits _ _ _ Hw) as (H1 & _ & _ & H2). split; [done|lia].
Qed.

Lemma process_row_writes a hi today r st st' p :
  process_row a hi today r st = Ok st' ->
  dirs (fs st') = dirs (fs st)
  /\ (files (fs st') !! p = files (fs st) !! p \/ page_shaped a p).
Proof.
  rewrite process_row_eq. cbv zeta. destruct (missing_required _ _).
  - intros [= <-]. split; [done|by left].
  - intros (d & Hd & Hp)%bind_Ok. unfold write_policy in Hp.
    destruct (_ && _); [injection Hp as <-; split; [done|by left]|].
    destruct (write a); [|injection Hp as <-; split; [done|by left]].
    unfold write_text in Hp. destruct (bool_decide _); [done|].
    injection Hp as <-. simpl. split; [done|].
    destruct (decide (output_dir a ++ [doc_id d ++ ".md"] = p)) as [<-|Hne].
    + right. exists (doc_id d). split; [done|]. by eapply build_document_id.
    + left. by apply lookup_insert_ne.
Qed.

Lemma process_rows_writes a hi today rows st p :
  dirs (fs (process_rows a hi today rows st).1) = dirs (fs st)
  /\ (files (fs (process_rows a hi today rows st).1) !! p = files (fs st) !! p
      \/ page_shaped a p).
Proof.
  revert st. induction rows as [|r rows IH]; intros st; simpl; [split; [done|by left]|].
  destruct (process_row a hi today r st) as [st'|e] eqn:Hr; [|split; [done|by left]].
  destruct (process_row_writes _ _ _ _ _ _ p Hr) as [Hd Hf].
  destruct (IH st') as [Hd' Hf']. split; [congruence|].
  destruct Hf' as [Hf'|?]; [|by right]. destruct Hf as [Hf|?]; [|by right].
  left. congruence.
Qed.

(** X16.  Whatever the mode, the only regular files a run creates or
    changes are pages: files of the output directory whose name is five or
    more digits followed by the extension md.  The loop adds no directory. *)
Theorem main_writes_pages_only a today rows f p :
  files (fs (main a today rows f).1) !! p <> files f !! p -> page_shaped a p.
Proof.
  destruct (main_cases a today rows f)
    as [[_ ->]|[(e & _ & ->)|(row0 & data & f1 & _ & Hm & Hfs & _)]]; [done|done|].
  cbv zeta in Hfs. rewrite Hfs.
  destruct (process_rows_writes a (header_index (headers_of row0)) today data
              (initial_state f1) p) as [_ [H|H]]; [|done].
  rewrite H. apply mkdir_parents_Ok in Hm as [_ ->]. done.
Qed.

Lemma main_writes_pages_only_witness :
  page_shaped (default_args true false) ["works" : str; "00361.md" : str].
Proof.
  apply (main_writes_pages_only (default_args true false) "2026-11-04"
           [example_header; example_row] empty_fs).
  vm_compute. discriminate.
Defined.
